(** * JsonRpcClient: the caching, retrying JSON-RPC client of the fork

    A shallow embedding of
    [packages/hardhat-core/src/internal/hardhat-network/jsonrpc/client.ts].

    Conventions of the embedding.
    - JavaScript values of static type [any] (request parameters, raw
      transport results, decoded results, cache contents) are the
      inductive type [any].
    - JavaScript [number]s that the client handles are integers in the
      safe range; they are modelled as [Z], as are [BN] big numbers.
      [BN.toNumber] gives the number of a [BN] of at most 53 bits and
      throws on a larger one.
    - An [async] method is a state transformer that returns a
      [completion]: either a value or the value that was thrown.  The
      state holds the client instance ([this]) and the outside world:
      the file system behind [fs-extra] and the number of calls that
      reached the transport.  A call is run to its end before the next
      one starts: what is proved is about calls that are awaited one
      after another.
    - The collaborators that live outside the file (the serializer of the
      parameters, the hash of [util/hash], the codecs of [./types], the
      encoders of [provider/output]) are variables of the section.  The
      serializer of the source is [JSON.stringify]; its definition by
      ECMAScript is the module [JSON], and what is proved of cache keys
      is proved of it. *)

From Stdlib Require Import ZArith String Ascii List Lia Bool.
From stdpp Require Import base gmap strings list pretty.
From Equations Require Import Equations.
From Equations.Prop Require Import Logic.
Import ListNotations.

Local Open Scope string_scope.
Local Open Scope Z_scope.

Set Warnings "-register-all".

(** ** Values *)

Inductive any : Type :=
| JsUndefined
| JsNull
| JsBool (b : bool)
| JsNumber (n : Z)
| JsString (s : string)
| JsBuffer (bytes : list Z)
| JsBN (n : Z)
| JsArray (items : list any)
| JsObject (fields : list (string * any)).

(** [x !== undefined] *)
Definition is_defined (x : any) : bool :=
  match x with
  | JsUndefined => false
  | _ => true
  end.

(** What a [throw] or a rejected promise carries: an instance of [Error]
    with its message, or any other value, which may or may not have a
    [message] property. *)
Inductive thrown : Type :=
| ErrorInstance (message : string)
| OtherValue (message : option string).

Inductive completion (A : Type) : Type :=
| Normal (v : A)
| Throw (err : thrown).
Arguments Normal {A} v.
Arguments Throw {A} err.

(** ** [String.prototype.includes] *)

Fixpoint startsWith (s sub : string) {struct sub} : bool :=
  match sub with
  | EmptyString => true
  | String c sub' =>
      match s with
      | EmptyString => false
      | String d s' => if Ascii.eqb c d then startsWith s' sub' else false
      end
  end.

Fixpoint includes (s sub : string) : bool :=
  if startsWith s sub then true
  else match s with
       | EmptyString => false
       | String _ s' => includes s' sub
       end.

(** ** The transport, [HttpProvider]

    The outcome of a call may depend on the request and on how many calls
    the provider has already served (as with a stub scripted per call). *)

Record BatchEntry : Type := {
  method : string;
  params : list any;
  tType : any -> completion any
}.

Record HttpProvider : Type := {
  url : string;
  request : nat -> string -> list any -> completion any;
  sendBatch : nat -> list BatchEntry -> completion (list any)
}.

(** ** The file system behind [fs-extra] *)

Inductive file : Type :=
| JsonFile (content : any)
| Unreadable.

Record World : Type := {
  files : gmap string file;
  dirs : gset string;
  fsFault : string -> option thrown;
  requestCalls : nat;
  sendBatchCalls : nat
}.

(** ** The client instance *)

Record JsonRpcClient : Type := {
  _cache : gmap string any;
  _scopedForkCacheFolderCreated : option bool;
  _httpProvider : HttpProvider;
  _networkId : Z;
  _latestBlockNumberOnCreation : Z;
  _maxReorg : Z;
  _forkCachePath : option string
}.

(** [new JsonRpcClient(httpProvider, networkId, latest, maxReorg, forkCachePath?)] *)
Definition constructor (httpProvider : HttpProvider) (networkId latest maxReorg : Z)
    (forkCachePath : option string) : JsonRpcClient :=
  {| _cache := ∅;
     _scopedForkCacheFolderCreated := None;
     _httpProvider := httpProvider;
     _networkId := networkId;
     _latestBlockNumberOnCreation := latest;
     _maxReorg := maxReorg;
     _forkCachePath := forkCachePath |}.

Record State : Type := {
  this : JsonRpcClient;
  world : World
}.

(** ** The monad of asynchronous methods *)

Definition M (A : Type) : Type := State -> completion A * State.

Definition ret {A} (v : A) : M A := fun st => (Normal v, st).

Definition bind {A B} (m : M A) (k : A -> M B) : M B :=
  fun st =>
    match m st with
    | (Normal v, st') => k v st'
    | (Throw err, st') => (Throw err, st')
    end.

(** [try { m } catch (err) { handler(err) }] *)
Definition try_catch {A} (m : M A) (handler : thrown -> M A) : M A :=
  fun st =>
    match m st with
    | (Normal v, st') => (Normal v, st')
    | (Throw err, st') => handler err st'
    end.

Definition lift {A} (c : completion A) : M A := fun st => (c, st).

Definition get_this : M JsonRpcClient := fun st => (Normal (this st), st).

Notation "'let*' x ':=' m 'in' k" := (bind m (fun x => k))
  (at level 10, x name, m at level 100, k at level 200).
Notation "m ';;' k" := (bind m (fun _ => k))
  (at level 100, k at level 200, right associativity).

Definition when (b : bool) (m : M unit) : M unit :=
  if b then m else ret tt.

(** ** State updates *)

Definition set_cache (f : gmap string any -> gmap string any) (c : JsonRpcClient)
    : JsonRpcClient :=
  {| _cache := f (_cache c);
     _scopedForkCacheFolderCreated := _scopedForkCacheFolderCreated c;
     _httpProvider := _httpProvider c;
     _networkId := _networkId c;
     _latestBlockNumberOnCreation := _latestBlockNumberOnCreation c;
     _maxReorg := _maxReorg c;
     _forkCachePath := _forkCachePath c |}.

Definition set_folderCreated (b : bool) (c : JsonRpcClient) : JsonRpcClient :=
  {| _cache := _cache c;
     _scopedForkCacheFolderCreated := Some b;
     _httpProvider := _httpProvider c;
     _networkId := _networkId c;
     _latestBlockNumberOnCreation := _latestBlockNumberOnCreation c;
     _maxReorg := _maxReorg c;
     _forkCachePath := _forkCachePath c |}.

Definition count_request (w : World) : World :=
  {| files := files w; dirs := dirs w; fsFault := fsFault w;
     requestCalls := S (requestCalls w); sendBatchCalls := sendBatchCalls w |}.

Definition count_sendBatch (w : World) : World :=
  {| files := files w; dirs := dirs w; fsFault := fsFault w;
     requestCalls := requestCalls w; sendBatchCalls := S (sendBatchCalls w) |}.

Definition write_file (p : string) (content : any) (w : World) : World :=
  {| files := <[p := JsonFile content]> (files w); dirs := dirs w;
     fsFault := fsFault w;
     requestCalls := requestCalls w; sendBatchCalls := sendBatchCalls w |}.

Definition make_dir (d : string) (w : World) : World :=
  {| files := files w; dirs := {[d]} ∪ dirs w; fsFault := fsFault w;
     requestCalls := requestCalls w; sendBatchCalls := sendBatchCalls w |}.

Definition modify_this (f : JsonRpcClient -> JsonRpcClient) : M unit :=
  fun st => (Normal tt, {| this := f (this st); world := world st |}).

(** ** [fs-extra] and [path] *)

(** [fsExtra.readJSON(p)]: rejects when the file is missing or does not
    hold JSON. *)
Definition fsExtra_readJSON (p : string) : M any :=
  fun st =>
    match files (world st) !! p with
    | Some (JsonFile v) => (Normal v, st)
    | Some Unreadable => (Throw (ErrorInstance "SyntaxError"), st)
    | None => (Throw (ErrorInstance "ENOENT"), st)
    end.

(** [fsExtra.writeJSON(p, v)] *)
Definition fsExtra_writeJSON (p : string) (v : any) : M unit :=
  fun st =>
    match fsFault (world st) p with
    | Some err => (Throw err, st)
    | None => (Normal tt, {| this := this st; world := write_file p v (world st) |})
    end.

(** [fsExtra.ensureDir(d)] *)
Definition fsExtra_ensureDir (d : string) : M unit :=
  fun st =>
    match fsFault (world st) d with
    | Some err => (Throw err, st)
    | None => (Normal tt, {| this := this st; world := make_dir d (world st) |})
    end.

(** [path.join(a, b)] *)
Definition path_join (a b : string) : string := a +:+ "/" +:+ b.

(** [buffer.toString("hex")], a byte string as lower-case hexadecimal *)
Definition hexDigit (n : N) : ascii :=
  match n with
  | 0 => "0" | 1 => "1" | 2 => "2" | 3 => "3" | 4 => "4" | 5 => "5"
  | 6 => "6" | 7 => "7" | 8 => "8" | 9 => "9" | 10 => "a" | 11 => "b"
  | 12 => "c" | 13 => "d" | 14 => "e" | _ => "f"
  end%char%N.

Fixpoint toString_hex (buffer : string) : string :=
  match buffer with
  | EmptyString => EmptyString
  | String c rest =>
      String (hexDigit (N_of_ascii c / 16))
        (String (hexDigit (N_of_ascii c mod 16)) (toString_hex rest))
  end.

(** [BN.prototype.toNumber] of [bn.js]: the number itself when it fits in
    53 bits, and otherwise the failed assertion of the library. *)
Definition BN_toNumber (bn : Z) : completion Z :=
  if Z.abs bn <? 2 ^ 53 then Normal bn
  else Throw (ErrorInstance "Number can only safely store up to 53 bits").

(** [decode(value, tType)] of [./types]: runs the codec and throws when
    the value does not have the expected shape. *)
Definition decode (value : any) (tType : any -> completion any) : completion any :=
  tType value.

(** [values.map((v, i) => decode(v, tTypes[i]))]: stops at the first value
    that does not decode; a value without a codec at its index makes the
    call throw. *)
Fixpoint map_decode (values : list any) (tTypes : list (any -> completion any))
    : completion (list any) :=
  match values with
  | [] => Normal []
  | v :: values' =>
      match tTypes with
      | [] => Throw (ErrorInstance "TypeError")
      | t :: tTypes' =>
          match decode v t with
          | Throw err => Throw err
          | Normal d =>
              match map_decode values' tTypes' with
              | Throw err => Throw err
              | Normal ds => Normal (d :: ds)
              end
          end
      end
  end.

(** Modelled from the spec: [nullable] of [./types], the codec of the
    lookups that give an absent result, not an error, when the queried
    entity does not exist: an absent raw value decodes to [null], any
    other goes to the codec of the entity. *)
Definition nullable (codec : any -> completion any) : any -> completion any :=
  fun input =>
    match input with
    | JsNull | JsUndefined => Normal JsNull
    | _ => codec input
    end.

(** [value[name]] where [value] may be [null] or [undefined] (optional
    chaining): a missing property is [undefined]. *)
Fixpoint assoc_property (name : string) (fields : list (string * any)) : any :=
  match fields with
  | [] => JsUndefined
  | (k, v) :: rest => if String.eqb k name then v else assoc_property name rest
  end.

Definition get_property (name : string) (value : any) : any :=
  match value with
  | JsObject fields => assoc_property name fields
  | _ => JsUndefined
  end.

(** [value[i]] on an array. *)
Definition get_index (i : nat) (value : any) : any :=
  match value with
  | JsArray items => nth i items JsUndefined
  | _ => JsUndefined
  end.

(** ** [JSON.stringify]

    [JSON.stringify(value)] without replacer and indentation, as
    ECMAScript defines it, on the values of [any].  A string is a string
    of bytes here, so that a character outside ASCII is written as it
    is. *)

Module JSON.

Definition quotationMark : ascii := Eval cbv in ascii_of_nat 34.
Definition reverseSolidus : ascii := Eval cbv in ascii_of_nat 92.

Definition escaped (c : ascii) : string := String reverseSolidus (String c "").

(** [QuoteJSONString], one character at a time: the short escapes, the
    quotation mark and the reverse solidus, [\u00xx] for the other
    control characters, and every other character as it is. *)
Definition quoteChar (c : ascii) : string :=
  let n := N_of_ascii c in
  if (n =? 8)%N then escaped "b"
  else if (n =? 9)%N then escaped "t"
  else if (n =? 10)%N then escaped "n"
  else if (n =? 12)%N then escaped "f"
  else if (n =? 13)%N then escaped "r"
  else if (n =? 34)%N then escaped quotationMark
  else if (n =? 92)%N then escaped reverseSolidus
  else if (n <? 32)%N then
    String reverseSolidus (String "u" (String "0" (String "0"
      (String (hexDigit (n / 16)) (String (hexDigit (n mod 16)) "")))))
  else String c "".

Fixpoint quoteChars (s : string) : string :=
  match s with
  | EmptyString => ""
  | String c rest => quoteChar c +:+ quoteChars rest
  end.

Definition quoteJSONString (s : string) : string :=
  String quotationMark (quoteChars s +:+ String quotationMark "").

(** The members of an array or of an object, with commas between them. *)
Fixpoint join (items : list string) : string :=
  match items with
  | [] => ""
  | x :: rest =>
      match rest with
      | [] => x
      | _ :: _ => x +:+ "," +:+ join rest
      end
  end.

(** [BN.prototype.toJSON] is [toString(16, 2)]: lower-case hexadecimal,
    padded to an even number of digits. *)
Fixpoint hexDigits (fuel : nat) (n : N) (acc : string) : string :=
  match fuel with
  | O => acc
  | S fuel' =>
      if (n =? 0)%N then acc
      else hexDigits fuel' (n / 16) (String (hexDigit (n mod 16)) acc)
  end.

Definition BN_toJSON (n : Z) : string :=
  let digits :=
    if (Z.abs_N n =? 0)%N then "0" else hexDigits (N.to_nat (N.size (Z.abs_N n))) (Z.abs_N n) "" in
  let padded := if Nat.even (String.length digits) then digits else String "0" digits in
  if n <? 0 then String "-" padded else padded.

(** [SerializeJSONProperty], in the place of an element of an array: an
    element that is [undefined] is written [null]; a property of an
    object whose value is [undefined] is left out.  A [Buffer] and a [BN]
    are written as their [toJSON] gives them. *)
Fixpoint serializeJSONProperty (value : any) : string :=
  match value with
  | JsUndefined => "null"
  | JsNull => "null"
  | JsBool true => "true"
  | JsBool false => "false"
  | JsNumber n => pretty n
  | JsString s => quoteJSONString s
  | JsBuffer bytes =>
      "{" +:+ quoteJSONString "type" +:+ ":" +:+ quoteJSONString "Buffer" +:+ ","
      +:+ quoteJSONString "data" +:+ ":[" +:+ join (map pretty bytes) +:+ "]}"
  | JsBN n => quoteJSONString (BN_toJSON n)
  | JsArray items => "[" +:+ join (map serializeJSONProperty items) +:+ "]"
  | JsObject fields =>
      "{" +:+
      join ((fix members (fs : list (string * any)) : list string :=
               match fs with
               | [] => []
               | (k, v) :: rest =>
                   if is_defined v
                   then (quoteJSONString k +:+ ":" +:+ serializeJSONProperty v)
                          :: members rest
                   else members rest
               end) fields)
      +:+ "}"
  end.

(** [JSON.stringify(params)] on a parameter array. *)
Definition stringify (params : list any) : string :=
  serializeJSONProperty (JsArray params).

End JSON.

(** ** The methods of [JsonRpcClient] *)

Section Client.

(** [JSON.stringify] on a parameter array. *)
Variable JSON_stringify : list any -> string.

(** [createNonCryptographicHashBasedIdentifier] of [util/hash], from the
    bytes of the plain-text key to the bytes of the identifier. *)
Variable createNonCryptographicHashBasedIdentifier : string -> string.

Definition getNetworkId (c : JsonRpcClient) : Z := _networkId c.

Definition _canBeReorgedOut (c : JsonRpcClient) (blockNumber : Z) : bool :=
  blockNumber >? _latestBlockNumberOnCreation c - _maxReorg c.

(** [blockNumber.toNumber()] of [bn.js] is what throws on a block number
    of more than 53 bits. *)
Definition _canBeCached (c : JsonRpcClient) (blockNumber : option Z) : completion bool :=
  match blockNumber with
  | None => Normal false
  | Some bn =>
      match BN_toNumber bn with
      | Normal n => Normal (negb (_canBeReorgedOut c n))
      | Throw err => Throw err
      end
  end.

Definition _isCacheToDiskEnabled (c : JsonRpcClient) : bool :=
  match _forkCachePath c with
  | Some _ => true
  | None => false
  end.

(** [path.join] throws on an argument that is not a string, which is the
    case of an absent [_forkCachePath]. *)
Definition _getDiskCachePathForKey (c : JsonRpcClient) (key : string) : completion string :=
  match _forkCachePath c with
  | None => Throw (ErrorInstance "TypeError")
  | Some forkCachePath =>
      Normal (path_join (path_join forkCachePath ("network-" +:+ pretty (_networkId c)))
                ("request-" +:+ key +:+ ".json"))
  end.

(** [path.dirname] of the path above. *)
Definition path_dirname_of_request (c : JsonRpcClient) : completion string :=
  match _forkCachePath c with
  | None => Throw (ErrorInstance "TypeError")
  | Some forkCachePath =>
      Normal (path_join forkCachePath ("network-" +:+ pretty (_networkId c)))
  end.

(** The text that is hashed: [`${networkId} ${method} ${JSON.stringify(params)}`]. *)
Definition plaintextKey (networkId : Z) (method : string) (params : list any) : string :=
  pretty networkId +:+ " " +:+ method +:+ " " +:+ JSON_stringify params.

Definition _getCacheKey (c : JsonRpcClient) (method : string) (params : list any) : string :=
  let networkId := getNetworkId c in
  let plaintextKey := plaintextKey networkId method params in
  let hashed := createNonCryptographicHashBasedIdentifier plaintextKey in
  toString_hex hashed.

(** The loop of [_getBatchCacheKey], [fakeMethod] and [fakeParams] being
    its two accumulators. *)
Fixpoint batchKeyLoop (batch : list BatchEntry) (fakeMethod : string)
    (fakeParams : list any) : string * list any :=
  match batch with
  | [] => (fakeMethod, fakeParams)
  | entry :: rest =>
      batchKeyLoop rest (fakeMethod +:+ method entry) (fakeParams ++ params entry)
  end.

Definition _getBatchCacheKey (c : JsonRpcClient) (batch : list BatchEntry) : string :=
  let '(fakeMethod, fakeParams) := batchKeyLoop batch "" [] in
  _getCacheKey c fakeMethod fakeParams.

(** [Map.get] gives [undefined] for a key that is not in the map. *)
Definition _getFromCache (cacheKey : string) : M any :=
  fun st => (Normal (default JsUndefined (_cache (this st) !! cacheKey)), st).

Definition _storeInCache (cacheKey : string) (decodedResult : any) : M unit :=
  modify_this (set_cache (insert cacheKey decodedResult)).

Definition _getRawFromDiskCache (cacheKey : string) : M any :=
  try_catch
    (let* c := get_this in
     let* p := lift (_getDiskCachePathForKey c cacheKey) in
     fsExtra_readJSON p)
    (fun error => ret JsUndefined).

Definition _getFromDiskCache (cacheKey : string) (tType : any -> completion any) : M any :=
  let* rawResult := _getRawFromDiskCache cacheKey in
  if is_defined rawResult then lift (decode rawResult tType)
  else ret JsUndefined.

(** The [match] is the test [Array.isArray(rawResults)]. *)
Definition _getBatchFromDiskCache (cacheKey : string)
    (tTypes : list (any -> completion any)) : M any :=
  let* rawResults := _getRawFromDiskCache cacheKey in
  match rawResults with
  | JsArray rs =>
      let* ds := lift (map_decode rs tTypes) in
      ret (JsArray ds)
  | _ => ret JsUndefined
  end.

Definition _storeInDiskCache (cacheKey : string) (rawResult : any) : M unit :=
  let* c := get_this in
  let* requestPath := lift (_getDiskCachePathForKey c cacheKey) in
  (if bool_decide (_scopedForkCacheFolderCreated c = Some true) then ret tt
   else
     (modify_this (set_folderCreated true) ;;
      let* d := lift (path_dirname_of_request c) in
      fsExtra_ensureDir d)) ;;
  fsExtra_writeJSON requestPath rawResult.

(** [err instanceof Error && err.message.includes("header not found")] is
    the [match]: the message of a value that is not an [Error] is never
    looked at. *)
Definition _shouldRetry (c : JsonRpcClient) (isRetryCall : bool) (err : thrown) : bool :=
  negb isRetryCall
  && includes (url (_httpProvider c)) "infura"
  && match err with
     | ErrorInstance message => includes message "header not found"
     | OtherValue _ => false
     end.

(** [this._httpProvider.request({ method, params })] *)
Definition httpProvider_request (method : string) (params : list any) : M any :=
  fun st =>
    (request (_httpProvider (this st)) (requestCalls (world st)) method params,
     {| this := this st; world := count_request (world st) |}).

(** [this._httpProvider.sendBatch(batch)] *)
Definition httpProvider_sendBatch (batch : list BatchEntry) : M (list any) :=
  fun st =>
    (sendBatch (_httpProvider (this st)) (sendBatchCalls (world st)) batch,
     {| this := this st; world := count_sendBatch (world st) |}).

Equations? _send (method : string) (params : list any) (isRetryCall : bool)
    (st : State) : completion any * State by wf (Nat.b2n (negb isRetryCall)) lt :=
  _send method params isRetryCall st with httpProvider_request method params st => {
    | (Normal v, st') => (Normal v, st');
    | (Throw err, st') with inspect (_shouldRetry (this st') isRetryCall err) => {
        | exist _ true Hretry => _send method params true st';
        | exist _ false _ => (Throw err, st') } }.
Proof.
  unfold _shouldRetry in Hretry. destruct isRetryCall; simpl in *; [discriminate | lia].
Qed.

Equations? _sendBatch (batch : list BatchEntry) (isRetryCall : bool)
    (st : State) : completion (list any) * State by wf (Nat.b2n (negb isRetryCall)) lt :=
  _sendBatch batch isRetryCall st with httpProvider_sendBatch batch st => {
    | (Normal v, st') => (Normal v, st');
    | (Throw err, st') with inspect (_shouldRetry (this st') isRetryCall err) => {
        | exist _ true Hretry => _sendBatch batch true st';
        | exist _ false _ => (Throw err, st') } }.
Proof.
  unfold _shouldRetry in Hretry. destruct isRetryCall; simpl in *; [discriminate | lia].
Qed.

(** The fields of [this] that the two methods below read after their
    first step are never assigned after construction, so [this] is read
    once. *)
Definition _perform (method : string) (params : list any)
    (tType : any -> completion any)
    (getMaxAffectedBlockNumber : any -> option Z) : M any :=
  let* c := get_this in
  let cacheKey := _getCacheKey c method params in
  let* cachedResult := _getFromCache cacheKey in
  if is_defined cachedResult then ret cachedResult
  else
    let* diskCachedResult := _getFromDiskCache cacheKey tType in
    if is_defined diskCachedResult then
      (_storeInCache cacheKey diskCachedResult ;;
       ret diskCachedResult)
    else
      let* rawResult := _send method params false in
      let* decodedResult := lift (decode rawResult tType) in
      let blockNumber := getMaxAffectedBlockNumber decodedResult in
      let* canBeCached := lift (_canBeCached c blockNumber) in
      (when canBeCached
         (_storeInCache cacheKey decodedResult ;;
          when (_isCacheToDiskEnabled c)
            (_storeInDiskCache cacheKey rawResult))) ;;
      ret decodedResult.

Definition _performBatch (batch : list BatchEntry)
    (getMaxAffectedBlockNumber : list any -> option Z) : M any :=
  let* c := get_this in
  let cacheKey := _getBatchCacheKey c batch in
  let* cachedResult := _getFromCache cacheKey in
  if is_defined cachedResult then ret cachedResult
  else
    let* diskCachedResult := _getBatchFromDiskCache cacheKey (map tType batch) in
    if is_defined diskCachedResult then
      (_storeInCache cacheKey diskCachedResult ;;
       ret diskCachedResult)
    else
      let* rawResults := _sendBatch batch false in
      let* decodedResults := lift (map_decode rawResults (map tType batch)) in
      let blockNumber := getMaxAffectedBlockNumber decodedResults in
      let* canBeCached := lift (_canBeCached c blockNumber) in
      (when canBeCached
         (_storeInCache cacheKey (JsArray decodedResults) ;;
          when (_isCacheToDiskEnabled c)
            (_storeInDiskCache cacheKey (JsArray rawResults)))) ;;
      ret (JsArray decodedResults).

(** ** The public operations used below

    The encoders and codecs come from other modules; each operation is a
    call of [_perform] or [_performBatch] with its codec and its
    extractor of the highest block the answer depends on. *)

Variable bufferToHex : list Z -> string.
Variable numberToRpcQuantity : Z -> string.
Variables rpcData rpcQuantity : any -> completion any.
Variables rpcBlock rpcBlockWithTransactions : any -> completion any.
Variables rpcTransaction rpcTransactionReceipt : any -> completion any.

(** [value?.[field] ?? undefined], for a field that holds a [BN] or [null]. *)
Definition optional_BN_field (field : string) (value : any) : option Z :=
  match get_property field value with
  | JsBN n => Some n
  | _ => None
  end.

Definition getStorageAt (address position : list Z) (blockNumber : Z) : M any :=
  _perform "eth_getStorageAt"
    [JsString (bufferToHex address); JsString (bufferToHex position);
     JsString (numberToRpcQuantity blockNumber)]
    rpcData
    (fun _ => Some blockNumber).

Definition getBlockByNumber (blockNumber : Z) (includeTransactions : bool) : M any :=
  if includeTransactions then
    _perform "eth_getBlockByNumber"
      [JsString (numberToRpcQuantity blockNumber); JsBool true]
      (nullable rpcBlockWithTransactions)
      (fun block => optional_BN_field "number" block)
  else
    _perform "eth_getBlockByNumber"
      [JsString (numberToRpcQuantity blockNumber); JsBool false]
      (nullable rpcBlock)
      (fun block => optional_BN_field "number" block).

Definition getBlockByHash (blockHash : list Z) (includeTransactions : bool) : M any :=
  if includeTransactions then
    _perform "eth_getBlockByHash"
      [JsString (bufferToHex blockHash); JsBool true]
      (nullable rpcBlockWithTransactions)
      (fun block => optional_BN_field "number" block)
  else
    _perform "eth_getBlockByHash"
      [JsString (bufferToHex blockHash); JsBool false]
      (nullable rpcBlock)
      (fun block => optional_BN_field "number" block).

Definition getTransactionByHash (transactionHash : list Z) : M any :=
  _perform "eth_getTransactionByHash"
    [JsString (bufferToHex transactionHash)]
    (nullable rpcTransaction)
    (fun tx => optional_BN_field "blockNumber" tx).

Definition getTransactionReceipt (transactionHash : list Z) : M any :=
  _perform "eth_getTransactionReceipt"
    [JsString (bufferToHex transactionHash)]
    (nullable rpcTransactionReceipt)
    (fun tx => optional_BN_field "blockNumber" tx).

Definition accountDataBatch (address : list Z) (blockNumber : Z) : list BatchEntry :=
  [ {| method := "eth_getCode";
       params := [JsString (bufferToHex address);
                  JsString (numberToRpcQuantity blockNumber)];
       tType := rpcData |};
    {| method := "eth_getTransactionCount";
       params := [JsString (bufferToHex address);
                  JsString (numberToRpcQuantity blockNumber)];
       tType := rpcQuantity |};
    {| method := "eth_getBalance";
       params := [JsString (bufferToHex address);
                  JsString (numberToRpcQuantity blockNumber)];
       tType := rpcQuantity |} ].

Definition getAccountData (address : list Z) (blockNumber : Z) : M any :=
  let* results := _performBatch (accountDataBatch address blockNumber)
                    (fun _ => Some blockNumber) in
  ret (JsObject [("code", get_index 0 results);
                 ("transactionCount", get_index 1 results);
                 ("balance", get_index 2 results)]).

(** The lookups by hash, each with the request it sends. *)
Inductive lookup : Type :=
| BlockByHash (blockHash : list Z) (includeTransactions : bool)
| TransactionByHash (transactionHash : list Z)
| TransactionReceipt (transactionHash : list Z).

Definition lookup_call (l : lookup) : M any :=
  match l with
  | BlockByHash blockHash includeTransactions =>
      getBlockByHash blockHash includeTransactions
  | TransactionByHash transactionHash => getTransactionByHash transactionHash
  | TransactionReceipt transactionHash => getTransactionReceipt transactionHash
  end.

Definition lookup_method (l : lookup) : string :=
  match l with
  | BlockByHash _ _ => "eth_getBlockByHash"
  | TransactionByHash _ => "eth_getTransactionByHash"
  | TransactionReceipt _ => "eth_getTransactionReceipt"
  end.

Definition lookup_params (l : lookup) : list any :=
  match l with
  | BlockByHash blockHash includeTransactions =>
      [JsString (bufferToHex blockHash); JsBool includeTransactions]
  | TransactionByHash transactionHash => [JsString (bufferToHex transactionHash)]
  | TransactionReceipt transactionHash => [JsString (bufferToHex transactionHash)]
  end.

(** The parameters of [eth_getStorageAt]. *)
Definition storageParams (address position : list Z) (blockNumber : Z) : list any :=
  [JsString (bufferToHex address); JsString (bufferToHex position);
   JsString (numberToRpcQuantity blockNumber)].

(** [t.array(rpcLog, "RpcLog Array")] *)
Variable rpcLogArray : any -> completion any.

(** The [address] option of [getLogs]: one buffer or an array of them. *)
Inductive addressFilter : Type :=
| OneAddress (a : list Z)
| ManyAddresses (l : list (list Z)).

Record LogsOptions : Type := {
  fromBlock : Z;
  toBlock : Z;
  address : option addressFilter;
  topics : option (list (option (list (option (list Z)))))
}.

(** The [address] and [topics] locals of [getLogs], [undefined] when the
    option is. *)
Definition logsAddress (options : LogsOptions) : any :=
  match address options with
  | None => JsUndefined
  | Some (ManyAddresses l) => JsArray (map (fun x => JsString (bufferToHex x)) l)
  | Some (OneAddress a) => JsString (bufferToHex a)
  end.

Definition logsTopics (options : LogsOptions) : any :=
  match topics options with
  | None => JsUndefined
  | Some ts =>
      JsArray
        (map (fun items =>
                match items with
                | Some items =>
                    JsArray (map (fun x => match x with
                                           | Some x => JsString (bufferToHex x)
                                           | None => JsNull
                                           end) items)
                | None => JsNull
                end) ts)
  end.

Definition logsParams (options : LogsOptions) : list any :=
  [JsObject [("fromBlock", JsString (numberToRpcQuantity (fromBlock options)));
             ("toBlock", JsString (numberToRpcQuantity (toBlock options)));
             ("address", logsAddress options);
             ("topics", logsTopics options)]].

Definition getLogs (options : LogsOptions) : M any :=
  _perform "eth_getLogs" (logsParams options) rpcLogArray
    (fun _ => Some (toBlock options)).

(** The codec and the block-number field of each lookup by hash. *)
Definition lookup_codec (l : lookup) : any -> completion any :=
  match l with
  | BlockByHash _ true => nullable rpcBlockWithTransactions
  | BlockByHash _ false => nullable rpcBlock
  | TransactionByHash _ => nullable rpcTransaction
  | TransactionReceipt _ => nullable rpcTransactionReceipt
  end.

Definition lookup_field (l : lookup) : string :=
  match l with
  | BlockByHash _ _ => "number"
  | TransactionByHash _ => "blockNumber"
  | TransactionReceipt _ => "blockNumber"
  end.

End Client.

(** The state after [k] more calls of [request] reached the transport. *)
Definition after_calls (k : nat) (st : State) : State :=
  {| this := this st;
     world := {| files := files (world st); dirs := dirs (world st);
                 fsFault := fsFault (world st);
                 requestCalls := k + requestCalls (world st);
                 sendBatchCalls := sendBatchCalls (world st) |} |}.

(** [n] identical calls in a row. *)
Fixpoint repeat_call {A} (n : nat) (call : M A) (st : State) : State :=
  match n with
  | O => st
  | S k => repeat_call k call (snd (call st))
  end.

(** The message property of a thrown value, if it has one. *)
Definition message_of (err : thrown) : option string :=
  match err with
  | ErrorInstance message => Some message
  | OtherValue message => message
  end.

(** ** Fake collaborators, in the manner of the test suite *)

Module Fake.

Definition quote : string := String (ascii_of_nat 34) EmptyString.

(** A stand-in for [JSON.stringify] on the parameters the client sends,
    strings and booleans.  A string is written as the hexadecimal of its
    bytes between quotes, which spares the escapes. *)
Definition stringifyItem (v : any) : string :=
  match v with
  | JsString s => quote +:+ toString_hex s +:+ quote
  | JsBool true => "true"
  | JsBool false => "false"
  | JsNumber n => pretty n
  | _ => "null"
  end.

Fixpoint join (items : list string) : string :=
  match items with
  | [] => ""
  | [x] => x
  | x :: rest => x +:+ "," +:+ join rest
  end.

Definition stringify (ps : list any) : string :=
  "[" +:+ join (map stringifyItem ps) +:+ "]".

(** A hash that has no collision at all. *)
Definition hash (s : string) : string := s.

Definition bufferToHex (bytes : list Z) : string :=
  "0x" +:+ toString_hex
             (string_of_list_ascii (map (fun b => ascii_of_N (Z.to_N b)) bytes)).

Definition numberToRpcQuantity (n : Z) : string := "0x" +:+ pretty n.

Definition rpcData (v : any) : completion any :=
  match v with
  | JsString s =>
      Normal (JsBuffer (map (fun a => Z.of_N (N_of_ascii a)) (list_ascii_of_string s)))
  | _ => Throw (ErrorInstance "Invalid value supplied to DATA")
  end.

Definition rpcEntity (v : any) : completion any :=
  match v with
  | JsObject fields => Normal (JsObject fields)
  | _ => Throw (ErrorInstance "Invalid value supplied to entity")
  end.

Definition response1 : any :=
  JsString "0x00000000000000000000000000000000000000000067bafa8fb7228f04ffa792".

(** A provider whose [request] follows a script indexed by the call. *)
Definition scripted (url : string) (script : nat -> completion any) : HttpProvider :=
  {| url := url;
     request := fun n _ _ => script n;
     sendBatch := fun _ _ => Normal [] |}.

Definition fakeProvider : HttpProvider := scripted "fake" (fun _ => Normal response1).

Definition fakeInfuraUrl : string := "http://infura.com".

Definition emptyWorld : World :=
  {| files := ∅; dirs := ∅; fsFault := fun _ => None;
     requestCalls := 0; sendBatchCalls := 0 |}.

(** [new JsonRpcClient(provider, 1, 123, 3)] in an empty world. *)
Definition start (provider : HttpProvider) : State :=
  {| this := constructor provider 1 123 3 None; world := emptyWorld |}.

Definition tmpDir : string := "/tmp/hardhat-network-forking-disk-cache".

(** [new JsonRpcClient(provider, 1, 123, 3, tmpDir)] over given files. *)
Definition startOnDisk (provider : HttpProvider) (fs : gmap string file) : State :=
  {| this := constructor provider 1 123 3 (Some tmpDir);
     world := {| files := fs; dirs := ∅; fsFault := fun _ => None;
                 requestCalls := 0; sendBatchCalls := 0 |} |}.

(** A provider that knows nothing: every answer is [null]. *)
Definition nullProvider : HttpProvider := scripted "fake" (fun _ => Normal JsNull).

Definition DAI_ADDRESS : list Z := [107; 23; 84; 116].
Definition DAI_TOTAL_SUPPLY_STORAGE_POSITION : list Z := [1].

Definition getStorageAt (blockNumber : Z) : M any :=
  getStorageAt stringify hash bufferToHex numberToRpcQuantity rpcData
    DAI_ADDRESS DAI_TOTAL_SUPPLY_STORAGE_POSITION blockNumber.

Definition storageKey (blockNumber : Z) : string :=
  _getCacheKey stringify hash (constructor fakeProvider 1 123 3 None) "eth_getStorageAt"
    (storageParams bufferToHex numberToRpcQuantity
       DAI_ADDRESS DAI_TOTAL_SUPPLY_STORAGE_POSITION blockNumber).

Definition storagePath (blockNumber : Z) : string :=
  path_join (path_join tmpDir "network-1")
    ("request-" +:+ storageKey blockNumber +:+ ".json").

(** The decoded form of [response1]. *)
Definition decoded1 : any :=
  match rpcData response1 with
  | Normal d => d
  | Throw _ => JsUndefined
  end.

Definition lookup_call : lookup -> M any :=
  lookup_call stringify hash bufferToHex rpcEntity rpcEntity rpcEntity rpcEntity.

(** The batch of [getAccountData], and a provider that answers it. *)
Definition accountBatch : list BatchEntry :=
  accountDataBatch bufferToHex numberToRpcQuantity rpcData rpcData DAI_ADDRESS 120.

Definition accountRaw : list any := [JsString "0x6080"; JsString "0x1"; JsString "0x0"].

Definition batchProvider : HttpProvider :=
  {| url := "fake";
     request := fun _ _ _ => Normal response1;
     sendBatch := fun _ _ => Normal accountRaw |}.

(** A provider whose [sendBatch] follows a script indexed by the call. *)
Definition scriptedBatch (url : string) (script : nat -> completion (list any))
    : HttpProvider :=
  {| url := url;
     request := fun _ _ _ => Normal response1;
     sendBatch := fun n _ => script n |}.

(** A provider that is down. *)
Definition downProvider : HttpProvider :=
  {| url := "fake";
     request := fun _ _ _ => Throw (ErrorInstance "connect ECONNREFUSED");
     sendBatch := fun _ _ => Throw (ErrorInstance "connect ECONNREFUSED") |}.

(** A log query over blocks 100 to 120 at one address, and its codec. *)
Definition rpcLogArray (v : any) : completion any :=
  match v with
  | JsArray logs => Normal (JsArray logs)
  | _ => Throw (ErrorInstance "Invalid value supplied to RpcLog Array")
  end.

Definition logsOptions (fromBlock toBlock : Z) : LogsOptions :=
  {| fromBlock := fromBlock; toBlock := toBlock;
     address := Some (OneAddress DAI_ADDRESS); topics := None |}.

Definition getLogs (fromBlock toBlock : Z) : M any :=
  getLogs stringify hash bufferToHex numberToRpcQuantity rpcLogArray
    (logsOptions fromBlock toBlock).

Definition logsProvider : HttpProvider := scripted "fake" (fun _ => Normal (JsArray [])).

(** A provider that answers every request with a block numbered 500. *)
Definition block500 : any := JsObject [("number", JsBN 500)].

Definition blockProvider : HttpProvider := scripted "fake" (fun _ => Normal block500).

(** [rpcEntity] for a block whose [number] is already decoded. *)
Definition getBlockByNumber (blockNumber : Z) : M any :=
  getBlockByNumber stringify hash numberToRpcQuantity rpcEntity rpcEntity
    blockNumber false.

Definition getAccountData : M any :=
  getAccountData stringify hash bufferToHex numberToRpcQuantity rpcData rpcData
    DAI_ADDRESS 120.

End Fake.

(** The three conditions of a retry, in the words of the design: the
    call is not already a retry, the address of the endpoint contains the
    marker of the flaky provider, and the message of the failure contains
    the text of the transient fault. *)
Definition retry_conditions (c : JsonRpcClient) (isRetryCall : bool) (err : thrown) : Prop :=
  isRetryCall = false /\
  includes (url (_httpProvider c)) "infura" = true /\
  exists message, message_of err = Some message /\
                  includes message "header not found" = true.

(** ** Vocabulary of the statements *)

(** The in-memory cache has nothing to return for the key. *)
Definition memory_miss (st : State) (key : string) : Prop :=
  default JsUndefined (_cache (this st) !! key) = JsUndefined.


(** The persistent store has nothing to return for the key. *)
Definition disk_miss (st : State) (key : string) : Prop :=
  fst (_getRawFromDiskCache key st) = Normal JsUndefined.

(** The state once [decodedResult] is in the in-memory cache. *)
Definition cached (key : string) (decodedResult : any) (st : State) : State :=
  {| this := set_cache (insert key decodedResult) (this st); world := world st |}.

(** Steps 4 to 7 of a single request, what [_perform] does once both
    caches have missed. *)
Definition fetchFromTransport (cacheKey method : string) (params : list any)
    (tType : any -> completion any)
    (getMaxAffectedBlockNumber : any -> option Z) : M any :=
  let* c := get_this in
  let* rawResult := _send method params false in
  let* decodedResult := lift (decode rawResult tType) in
  let blockNumber := getMaxAffectedBlockNumber decodedResult in
  let* canBeCached := lift (_canBeCached c blockNumber) in
  (when canBeCached
     (_storeInCache cacheKey decodedResult ;;
      when (_isCacheToDiskEnabled c)
        (_storeInDiskCache cacheKey rawResult))) ;;
  ret decodedResult.

(** Two states of one client instance: the construction parameters are
    the same. *)
Definition same_config (c c' : JsonRpcClient) : Prop :=
  _httpProvider c' = _httpProvider c /\
  _networkId c' = _networkId c /\
  _latestBlockNumberOnCreation c' = _latestBlockNumberOnCreation c /\
  _maxReorg c' = _maxReorg c /\
  _forkCachePath c' = _forkCachePath c.




(** The method names of a batch, concatenated in order, and its parameter
    lists, flattened in order. *)
Definition concatMethods (batch : list BatchEntry) : string :=
  fold_right (fun entry acc => method entry +:+ acc) "" batch.

Definition flattenParams (batch : list BatchEntry) : list any :=
  concat (map params batch).

(** The state after [k] more calls of [sendBatch] reached the transport. *)
Definition after_batch_calls (k : nat) (st : State) : State :=
  {| this := this st;
     world := {| files := files (world st); dirs := dirs (world st);
                 fsFault := fsFault (world st);
                 requestCalls := requestCalls (world st);
                 sendBatchCalls := k + sendBatchCalls (world st) |} |}.

(** What [_performBatch] does once both caches have missed. *)
Definition batchFromTransport (cacheKey : string) (batch : list BatchEntry)
    (getMaxAffectedBlockNumber : list any -> option Z) : M any :=
  let* c := get_this in
  let* rawResults := _sendBatch batch false in
  let* decodedResults := lift (map_decode rawResults (map tType batch)) in
  let blockNumber := getMaxAffectedBlockNumber decodedResults in
  let* canBeCached := lift (_canBeCached c blockNumber) in
  (when canBeCached
     (_storeInCache cacheKey (JsArray decodedResults) ;;
      when (_isCacheToDiskEnabled c)
        (_storeInDiskCache cacheKey (JsArray rawResults)))) ;;
  ret (JsArray decodedResults).

(** A text without the character [c]. *)
Fixpoint lacks (c : ascii) (s : string) : bool :=
  match s with
  | EmptyString => true
  | String d s' => negb (Ascii.eqb d c) && lacks c s'
  end.

(** Between two states, only the entry of [key] may differ: the
    construction parameters are the same, the entries of the other keys
    and the files of the other paths are the same, and without a cache
    path the file system is the same. *)
Definition touches_only (key : string) (st st' : State) : Prop :=
  same_config (this st) (this st') /\
  (forall k, k <> key -> _cache (this st') !! k = _cache (this st) !! k) /\
  (_forkCachePath (this st) = None ->
   files (world st') = files (world st) /\ dirs (world st') = dirs (world st)) /\
  (forall p q, _getDiskCachePathForKey (this st) key = Normal p -> q <> p ->
     files (world st') !! q = files (world st) !! q).

(** ** Reading a JSON text

    The notions with which the texts of [JSON.stringify] are told apart. *)


(** Where a reader of a JSON text is: outside the string literals, inside
    one, or just after a reverse solidus inside one. *)
Inductive position : Type := Outside | Inside | Escaped.









(** Induction on a value, its elements and the values of its fields
    included. *)
Section any_induction.

Variable P : any -> Prop.
Hypothesis Hundefined : P JsUndefined.
Hypothesis Hnull : P JsNull.
Hypothesis Hbool : forall b, P (JsBool b).
Hypothesis Hnumber : forall n, P (JsNumber n).
Hypothesis Hstring : forall s, P (JsString s).
Hypothesis Hbuffer : forall bytes, P (JsBuffer bytes).
Hypothesis HBN : forall n, P (JsBN n).
Hypothesis Harray : forall items, Forall P items -> P (JsArray items).
Hypothesis Hobject : forall fields, Forall (fun kv => P (snd kv)) fields -> P (JsObject fields).


End any_induction.

(** * Properties *)

(** ** The runs of the test suite *)

Example doesnt_cache_blocks_that_can_be_reorged_out :
  requestCalls (world (snd ((Fake.getStorageAt 121 ;; Fake.getStorageAt 121)
                              (Fake.start Fake.fakeProvider)))) = 2%nat.
Proof. vm_compute. reflexivity. Qed.

Example caches_fetched_data_when_its_safe :
  requestCalls (world (snd ((Fake.getStorageAt 120 ;; Fake.getStorageAt 120)
                              (Fake.start Fake.fakeProvider)))) = 1%nat.
Proof. vm_compute. reflexivity. Qed.

Example makes_a_retry_on_header_not_found :
  let provider :=
    Fake.scripted Fake.fakeInfuraUrl
      (fun n => match n with
                | O => Throw (ErrorInstance "header not found")
                | _ => Normal Fake.response1
                end) in
  let '(result, st) := Fake.getStorageAt 120 (Fake.start provider) in
  result = Fake.rpcData Fake.response1 /\ requestCalls (world st) = 2%nat.
Proof. vm_compute. split; reflexivity. Qed.

Example does_not_retry_more_than_once :
  let provider :=
    Fake.scripted Fake.fakeInfuraUrl
      (fun n => match n with
                | 0%nat | 1%nat => Throw (ErrorInstance "header not found")
                | _ => Normal Fake.response1
                end) in
  let '(result, st) := Fake.getStorageAt 120 (Fake.start provider) in
  result = Throw (ErrorInstance "header not found") /\ requestCalls (world st) = 2%nat.
Proof. vm_compute. split; reflexivity. Qed.

Example does_not_retry_on_a_different_error :
  let provider :=
    Fake.scripted Fake.fakeInfuraUrl
      (fun n => match n with
                | O => Throw (ErrorInstance "different error")
                | _ => Normal Fake.response1
                end) in
  let '(result, st) := Fake.getStorageAt 120 (Fake.start provider) in
  result = Throw (ErrorInstance "different error") /\ requestCalls (world st) = 1%nat.
Proof. vm_compute. split; reflexivity. Qed.

Example does_not_retry_when_other_provider_is_used :
  let provider :=
    Fake.scripted "other"
      (fun n => match n with
                | O => Throw (ErrorInstance "header not found")
                | _ => Normal Fake.response1
                end) in
  let '(result, st) := Fake.getStorageAt 120 (Fake.start provider) in
  result = Throw (ErrorInstance "header not found") /\ requestCalls (world st) = 1%nat.
Proof. vm_compute. split; reflexivity. Qed.

Example is_parameter_aware :
  let response2 := JsString "0x67bafa8fb7228f04ffa793" in
  let provider :=
    Fake.scripted "fake"
      (fun n => match n with
                | O => Normal Fake.response1
                | _ => Normal response2
                end) in
  let '(firstResponse110, st1) := Fake.getStorageAt 110 (Fake.start provider) in
  let '(firstResponse120, st2) := Fake.getStorageAt 120 st1 in
  let '(secondResponse120, st3) := Fake.getStorageAt 120 st2 in
  let '(secondResponse110, st4) := Fake.getStorageAt 110 st3 in
  firstResponse110 = secondResponse110 /\
  firstResponse120 = secondResponse120 /\
  firstResponse110 = Fake.rpcData Fake.response1 /\
  firstResponse120 = Fake.rpcData response2.
Proof. vm_compute. repeat split. Qed.

Example stores_to_disk_after_a_request :
  let st := (Fake.getStorageAt 120 ;; Fake.getStorageAt 120)
              (Fake.startOnDisk Fake.fakeProvider ∅) in
  requestCalls (world (snd st)) = 1%nat /\
  files (world (snd st)) !! Fake.storagePath 120 = Some (JsonFile Fake.response1) /\
  size (files (world (snd st))) = 1%nat.
Proof. vm_compute. repeat split. Qed.

Example reads_from_disk_if_available :
  let first := (Fake.getStorageAt 120 ;; Fake.getStorageAt 120)
                 (Fake.startOnDisk Fake.fakeProvider ∅) in
  let newClient :=
    {| this := constructor Fake.fakeProvider 1 123 3 (Some Fake.tmpDir);
       world := world (snd first) |} in
  let second := (Fake.getStorageAt 120 ;; Fake.getStorageAt 120) newClient in
  fst second = Fake.rpcData Fake.response1 /\
  requestCalls (world (snd second)) = 1%nat.
Proof. vm_compute. repeat split. Qed.

(** ** Strings *)

Lemma append_String c (a b : string) : String c a +:+ b = String c (a +:+ b).
Proof. reflexivity. Qed.

Lemma append_empty (b : string) : "" +:+ b = b.
Proof. reflexivity. Qed.

Lemma startsWith_spec s sub :
  startsWith s sub = true <-> exists post, s = sub +:+ post.
Proof.
  revert s. induction sub as [|c sub IH]; intros s; cbn [startsWith].
  - split; [intros _; exists s; reflexivity | reflexivity].
  - destruct s as [|d s].
    + split; [discriminate | intros [post H]; discriminate].
    + destruct (Ascii.eqb c d) eqn:E.
      * apply Ascii.eqb_eq in E. subst d. rewrite IH.
        split; intros [post H]; exists post; rewrite append_String in *; congruence.
      * apply Ascii.eqb_neq in E.
        split; [discriminate | intros [post H]; rewrite append_String in H; congruence].
Qed.

(** [includes] is the substring test. *)
Lemma includes_spec s sub :
  includes s sub = true <-> exists pre post, s = pre +:+ sub +:+ post.
Proof.
  induction s as [|d s IH].
  - cbn [includes]. destruct (startsWith "" sub) eqn:E.
    + apply startsWith_spec in E as [post E].
      split; [intros _; exists "", post; exact E | reflexivity].
    + split; [discriminate |].
      intros [pre [post H]]. destruct pre; [| discriminate]. rewrite append_empty in H.
      assert (startsWith "" sub = true) by (apply startsWith_spec; eauto).
      congruence.
  - cbn [includes]. destruct (startsWith (String d s) sub) eqn:E.
    + apply startsWith_spec in E as [post E].
      split; [intros _; exists "", post; exact E | reflexivity].
    + rewrite IH. split.
      * intros [pre [post H]]. exists (String d pre), post.
        rewrite append_String. congruence.
      * intros [pre [post H]]. destruct pre as [|e pre].
        -- rewrite append_empty in H.
           assert (startsWith (String d s) sub = true) by (apply startsWith_spec; eauto).
           congruence.
        -- rewrite append_String in H. injection H as _ H. eauto.
Qed.

(** ** The request executor *)

Lemma _shouldRetry_on_retry c err : _shouldRetry c true err = false.
Proof. reflexivity. Qed.

(** The three conditions of a retry, and the [instanceof] test. *)
Lemma _shouldRetry_true c isRetryCall err :
  _shouldRetry c isRetryCall err = true <->
  isRetryCall = false /\
  includes (url (_httpProvider c)) "infura" = true /\
  exists message, err = ErrorInstance message /\
                  includes message "header not found" = true.
Proof.
  unfold _shouldRetry. rewrite !andb_true_iff, negb_true_iff. split.
  - intros [[H1 H2] H3]. destruct err as [message | message]; [| discriminate].
    eauto.
  - intros (H1 & H2 & message & -> & H3). auto.
Qed.

Lemma _send_step method params isRetryCall st :
  _send method params isRetryCall st =
    match request (_httpProvider (this st)) (requestCalls (world st)) method params with
    | Normal v => (Normal v, after_calls 1 st)
    | Throw err =>
        if _shouldRetry (this st) isRetryCall err
        then _send method params true (after_calls 1 st)
        else (Throw err, after_calls 1 st)
    end.
Proof.
  rewrite _send_unfold_eq. unfold _send_unfold, httpProvider_request.
  destruct (request _ _ _ _) as [v | err]; [reflexivity |].
  simpl. destruct (_shouldRetry (this st) isRetryCall err); reflexivity.
Qed.

(** [_send] without its recursion: the second call, when there is one, is
    the last. *)
Lemma _send_spec method params isRetryCall st :
  _send method params isRetryCall st =
    match request (_httpProvider (this st)) (requestCalls (world st)) method params with
    | Normal v => (Normal v, after_calls 1 st)
    | Throw err =>
        if _shouldRetry (this st) isRetryCall err
        then (request (_httpProvider (this st)) (S (requestCalls (world st))) method params,
              after_calls 2 st)
        else (Throw err, after_calls 1 st)
    end.
Proof.
  rewrite _send_step.
  destruct (request _ _ _ _) as [v | err]; [reflexivity |].
  destruct (_shouldRetry (this st) isRetryCall err); [| reflexivity].
  rewrite _send_step. cbn [after_calls this world requestCalls Nat.add].
  destruct (request _ (S _) _ _) as [v2 | err2]; reflexivity.
Qed.

Lemma _sendBatch_spec batch isRetryCall st :
  _sendBatch batch isRetryCall st =
    let after k :=
      {| this := this st;
         world := {| files := files (world st); dirs := dirs (world st);
                     fsFault := fsFault (world st);
                     requestCalls := requestCalls (world st);
                     sendBatchCalls := k + sendBatchCalls (world st) |} |} in
    match sendBatch (_httpProvider (this st)) (sendBatchCalls (world st)) batch with
    | Normal v => (Normal v, after 1%nat)
    | Throw err =>
        if _shouldRetry (this st) isRetryCall err
        then (sendBatch (_httpProvider (this st)) (S (sendBatchCalls (world st))) batch,
              after 2%nat)
        else (Throw err, after 1%nat)
    end.
Proof.
  rewrite _sendBatch_unfold_eq. unfold _sendBatch_unfold, httpProvider_sendBatch.
  destruct (sendBatch _ _ _) as [v | err]; [reflexivity |].
  simpl. destruct (_shouldRetry (this st) isRetryCall err); [| reflexivity].
  rewrite _sendBatch_unfold_eq. unfold _sendBatch_unfold, httpProvider_sendBatch.
  simpl. destruct (sendBatch _ (S _) _) as [v2 | err2]; reflexivity.
Qed.

(** What [_send] leaves alone: the client and the files. *)
Lemma _send_frame method params isRetryCall st :
  exists k, (k = 1 \/ k = 2)%nat /\
            snd (_send method params isRetryCall st) = after_calls k st.
Proof.
  rewrite _send_spec.
  destruct (request _ _ _ _) as [v | err]; [exists 1%nat; auto |].
  destruct (_shouldRetry _ _ _); [exists 2%nat | exists 1%nat]; auto.
Qed.

Lemma after_calls_inj k k' st : after_calls k st = after_calls k' st -> k = k'.
Proof.
  intros H.
  assert (E : requestCalls (world (after_calls k st))
              = requestCalls (world (after_calls k' st))) by (rewrite H; reflexivity).
  simpl in E. lia.
Qed.

(** C2. On a transport failure the executor retries exactly once, and only
    when the call is not already a retry, the endpoint address contains
    the marker of the flaky provider and the message of the failure
    contains "header not found".  Any other failure is returned unchanged
    after a single call; the outcome of the retry, a second failure
    included, is returned unchanged and no third call is made. *)
Theorem C2_send_retries_once_under_three_conditions
    (method : string) (params : list any) (isRetryCall : bool) (st : State) :
  let provider := _httpProvider (this st) in
  let n := requestCalls (world st) in
  let first := request provider n method params in
  let second := request provider (S n) method params in
  (snd (_send method params isRetryCall st) = after_calls 1 st \/
   snd (_send method params isRetryCall st) = after_calls 2 st) /\
  (snd (_send method params isRetryCall st) = after_calls 2 st ->
   exists err, first = Throw err /\ retry_conditions (this st) isRetryCall err) /\
  (forall err, first = Throw err ->
     ~ retry_conditions (this st) isRetryCall err ->
     _send method params isRetryCall st = (Throw err, after_calls 1 st)) /\
  (forall message, first = Throw (ErrorInstance message) ->
     retry_conditions (this st) isRetryCall (ErrorInstance message) ->
     _send method params isRetryCall st = (second, after_calls 2 st)).
Proof.
  cbv zeta. rewrite _send_spec.
  destruct (request _ _ _ _) as [v | err] eqn:Efirst.
  - cbn [snd fst]. split; [| split; [| split]].
    + auto.
    + intros H. apply after_calls_inj in H. discriminate.
    + intros err H. discriminate.
    + intros message H. discriminate.
  - destruct (_shouldRetry (this st) isRetryCall err) eqn:Eretry; cbn [snd fst].
    + apply _shouldRetry_true in Eretry as (Hcall & Hurl & message & -> & Hmsg).
      assert (Hcond : retry_conditions (this st) isRetryCall (ErrorInstance message)).
      { repeat split; auto. exists message. auto. }
      split; [| split; [| split]].
      * auto.
      * intros _. eauto.
      * intros err [= <-] Hno. contradiction.
      * intros message' [= <-] _. reflexivity.
    + split; [| split; [| split]].
      * auto.
      * intros H. apply after_calls_inj in H. discriminate.
      * intros err' [= <-] _. reflexivity.
      * intros message [= ->] (Hcall & Hurl & message' & [= <-] & Hmsg).
        assert (_shouldRetry (this st) isRetryCall (ErrorInstance message) = true)
          by (apply _shouldRetry_true; eauto).
        congruence.
Qed.

Lemma C2_witness :
  let flaky :=
    Fake.scripted Fake.fakeInfuraUrl
      (fun n => match n with
                | 0%nat | 1%nat => Throw (ErrorInstance "header not found")
                | _ => Normal Fake.response1
                end) in
  let other :=
    Fake.scripted "other" (fun _ => Throw (ErrorInstance "header not found")) in
  _send "eth_getStorageAt" [] false (Fake.start flaky)
    = (Throw (ErrorInstance "header not found"), after_calls 2 (Fake.start flaky)) /\
  _send "eth_getStorageAt" [] false (Fake.start other)
    = (Throw (ErrorInstance "header not found"), after_calls 1 (Fake.start other)) /\
  (exists err, Throw (A := any) (ErrorInstance "header not found") = Throw err /\
               retry_conditions (this (Fake.start flaky)) false err).
Proof.
  intros flaky other.
  destruct (C2_send_retries_once_under_three_conditions
              "eth_getStorageAt" [] false (Fake.start flaky))
    as (_ & Honly & _ & Hretry).
  destruct (C2_send_retries_once_under_three_conditions
              "eth_getStorageAt" [] false (Fake.start other))
    as (_ & _ & Hother & _).
  split; [| split].
  - apply (Hretry "header not found").
    + reflexivity.
    + split; [reflexivity |]. split; [vm_compute; reflexivity |].
      exists "header not found". split; [reflexivity | vm_compute; reflexivity].
  - apply (Hother (ErrorInstance "header not found")).
    + reflexivity.
    + intros (_ & Hurl & _). vm_compute in Hurl. discriminate.
  - apply Honly. vm_compute. reflexivity.
Defined.

(** C10. A rejection whose value is not an instance of [Error] is never
    retried: it is returned unchanged after a single call, even on a first
    attempt against an endpoint whose address contains the marker, with a
    [message] property that contains "header not found". *)
Theorem C10_value_that_is_not_an_Error_is_not_retried
    (method : string) (params : list any) (isRetryCall : bool) (st : State)
    (message : option string) :
  request (_httpProvider (this st)) (requestCalls (world st)) method params
    = Throw (OtherValue message) ->
  _shouldRetry (this st) isRetryCall (OtherValue message) = false /\
  _send method params isRetryCall st = (Throw (OtherValue message), after_calls 1 st).
Proof.
  intros Hfirst.
  assert (Hno : _shouldRetry (this st) isRetryCall (OtherValue message) = false).
  { unfold _shouldRetry. rewrite andb_false_r. reflexivity. }
  split; [exact Hno |].
  rewrite _send_spec, Hfirst, Hno. reflexivity.
Qed.

Lemma C10_witness :
  let provider :=
    Fake.scripted Fake.fakeInfuraUrl
      (fun n => match n with
                | O => Throw (OtherValue (Some "header not found"))
                | _ => Normal Fake.response1
                end) in
  (includes (url provider) "infura" = true /\
   includes "header not found" "header not found" = true) /\
  _shouldRetry (this (Fake.start provider)) false
    (OtherValue (Some "header not found")) = false /\
  _send "eth_getStorageAt" [] false (Fake.start provider)
    = (Throw (OtherValue (Some "header not found")), after_calls 1 (Fake.start provider)).
Proof.
  intros provider. split; [split; vm_compute; reflexivity |].
  apply (C10_value_that_is_not_an_Error_is_not_retried
           "eth_getStorageAt" [] false (Fake.start provider)
           (Some "header not found")).
  reflexivity.
Defined.

(** ** The two caches *)

Ltac run :=
  unfold _storeInCache, _getFromCache, when;
  unfold bind, ret, lift, try_catch, get_this, modify_this;
  cbn [fst snd this world].

Lemma _getRawFromDiskCache_total key st :
  exists v, _getRawFromDiskCache key st = (Normal v, st).
Proof.
  unfold _getRawFromDiskCache. run.
  destruct (_getDiskCachePathForKey (this st) key) as [p | err]; [| eauto].
  unfold fsExtra_readJSON.
  destruct (files (world st) !! p) as [[v |] |]; eauto.
Qed.


Lemma disk_miss_eq st key :
  disk_miss st key -> _getRawFromDiskCache key st = (Normal JsUndefined, st).
Proof.
  unfold disk_miss. destruct (_getRawFromDiskCache_total key st) as [v ->].
  cbn. intros [= ->]. reflexivity.
Qed.

(** The disk tier is read with the client's path and network only. *)
Lemma disk_miss_frame st st' key :
  _forkCachePath (this st') = _forkCachePath (this st) ->
  _networkId (this st') = _networkId (this st) ->
  files (world st') = files (world st) ->
  disk_miss st key -> disk_miss st' key.
Proof.
  unfold disk_miss, _getRawFromDiskCache, _getDiskCachePathForKey, fsExtra_readJSON.
  run. intros -> -> ->. destruct (_forkCachePath (this st)); [| reflexivity].
  destruct (files (world st) !! _) as [[v |] |]; auto.
Qed.

Lemma _perform_miss JSON_stringify hash method params tType getMax st :
  let key := _getCacheKey JSON_stringify hash (this st) method params in
  memory_miss st key -> disk_miss st key ->
  _perform JSON_stringify hash method params tType getMax st
    = fetchFromTransport key method params tType getMax st.
Proof.
  intros key Hmem Hdisk. unfold _perform, fetchFromTransport. run.
  fold key. unfold memory_miss in Hmem. rewrite Hmem. cbn [is_defined].
  unfold _getFromDiskCache. run. rewrite (disk_miss_eq _ _ Hdisk).
  cbn [is_defined]. reflexivity.
Qed.

Lemma same_config_refl c : same_config c c.
Proof. repeat split. Qed.

Lemma same_config_trans c1 c2 c3 :
  same_config c1 c2 -> same_config c2 c3 -> same_config c1 c3.
Proof.
  unfold same_config. intros (A1 & A2 & A3 & A4 & A5) (B1 & B2 & B3 & B4 & B5).
  repeat split; congruence.
Qed.

Lemma same_config_cached st key d : same_config (this st) (this (cached key d st)).
Proof. repeat split. Qed.

Lemma _send_this method params isRetryCall st :
  this (snd (_send method params isRetryCall st)) = this st /\
  files (world (snd (_send method params isRetryCall st))) = files (world st) /\
  fsFault (world (snd (_send method params isRetryCall st))) = fsFault (world st) /\
  (requestCalls (world st) < requestCalls (world (snd (_send method params isRetryCall st))))%nat.
Proof.
  destruct (_send_frame method params isRetryCall st) as (k & Hk & ->).
  cbn. repeat split. lia.
Qed.

(** Writing an entry changes the file of the key, or nothing when the file
    system refuses; the in-memory cache is not touched. *)
Lemma _storeInDiskCache_spec key raw st forkCachePath :
  _forkCachePath (this st) = Some forkCachePath ->
  exists p, _getDiskCachePathForKey (this st) key = Normal p /\
    _cache (this (snd (_storeInDiskCache key raw st))) = _cache (this st) /\
    same_config (this st) (this (snd (_storeInDiskCache key raw st))) /\
    requestCalls (world (snd (_storeInDiskCache key raw st))) = requestCalls (world st) /\
    ((fst (_storeInDiskCache key raw st) = Normal tt /\
      files (world (snd (_storeInDiskCache key raw st)))
        = <[p := JsonFile raw]> (files (world st))) \/
     (exists err, fst (_storeInDiskCache key raw st) = Throw err /\
        files (world (snd (_storeInDiskCache key raw st))) = files (world st))).
Proof.
  intros Hpath. unfold _storeInDiskCache, _getDiskCachePathForKey, path_dirname_of_request.
  run. rewrite Hpath. eexists. split; [reflexivity |].
  case_bool_decide as Hflag.
  - unfold fsExtra_writeJSON. cbn [this world].
    destruct (fsFault (world st) _) as [err |]; cbn.
    + repeat split; eauto.
    + repeat split; eauto.
  - cbn [this world]. unfold fsExtra_ensureDir. cbn [this world].
    destruct (fsFault (world st) (path_join _ (_ +:+ pretty _))) as [err |]; cbn.
    + repeat split; eauto.
    + unfold fsExtra_writeJSON. cbn.
      destruct (fsFault (world st) _) as [err |]; cbn; repeat split; eauto.
Qed.

(** [_storeInDiskCache], step by step. *)
Lemma _storeInDiskCache_run key raw st forkCachePath :
  _forkCachePath (this st) = Some forkCachePath ->
  let d := path_join forkCachePath ("network-" +:+ pretty (_networkId (this st))) in
  let p := path_join d ("request-" +:+ key +:+ ".json") in
  let flagged w := {| this := set_folderCreated true (this st); world := w |} in
  _storeInDiskCache key raw st =
    if bool_decide (_scopedForkCacheFolderCreated (this st) = Some true) then
      match fsFault (world st) p with
      | Some err => (Throw err, st)
      | None => (Normal tt, {| this := this st; world := write_file p raw (world st) |})
      end
    else
      match fsFault (world st) d with
      | Some err => (Throw err, flagged (world st))
      | None =>
          match fsFault (world st) p with
          | Some err => (Throw err, flagged (make_dir d (world st)))
          | None => (Normal tt, flagged (write_file p raw (make_dir d (world st))))
          end
      end.
Proof.
  intros Hpath d p flagged. subst d p flagged.
  unfold _storeInDiskCache, _getDiskCachePathForKey, path_dirname_of_request.
  run. rewrite Hpath.
  case_bool_decide as Hflag.
  - unfold fsExtra_writeJSON. cbn [this world].
    destruct (fsFault (world st) _) as [err |]; reflexivity.
  - cbn [this world]. unfold fsExtra_ensureDir. cbn [this world].
    destruct (fsFault (world st) (path_join _ (_ +:+ pretty _))) as [err |];
      [reflexivity |].
    unfold fsExtra_writeJSON. cbn [this world make_dir fsFault].
    destruct (fsFault (world st) _) as [err |]; reflexivity.
Qed.

(** The eligibility check on a block number that is there. *)
Lemma _canBeCached_Some c bn :
  _canBeCached c (Some bn) =
    if Z.abs bn <? 2 ^ 53
    then Normal (bn <=? _latestBlockNumberOnCreation c - _maxReorg c)
    else Throw (ErrorInstance "Number can only safely store up to 53 bits").
Proof.
  unfold _canBeCached, BN_toNumber, _canBeReorgedOut.
  destruct (Z.abs bn <? 2 ^ 53); [| reflexivity].
  rewrite Z.gtb_ltb, <- Z.leb_antisym. reflexivity.
Qed.

Lemma _canBeCached_above c bn :
  bn > _latestBlockNumberOnCreation c - _maxReorg c ->
  _canBeCached c (Some bn) <> Normal true.
Proof.
  intros Habove. rewrite _canBeCached_Some.
  destruct (Z.abs bn <? 2 ^ 53); [| discriminate].
  intros [= H]. apply Z.leb_le in H. lia.
Qed.

Lemma _canBeCached_below c bn :
  bn <= _latestBlockNumberOnCreation c - _maxReorg c ->
  _canBeCached c (Some bn) <> Normal false.
Proof.
  intros Hbelow. rewrite _canBeCached_Some.
  destruct (Z.abs bn <? 2 ^ 53); [| discriminate].
  intros [= H]. apply Z.leb_gt in H. lia.
Qed.

Section TransportPath.

Variables (key method : string) (params : list any).
Variable tType : any -> completion any.
Variable getMax : any -> option Z.
Variables (st st1 : State) (raw : any).
Hypothesis Hsend : _send method params false st = (Normal raw, st1).

Lemma sent_this : this st1 = this st.
Proof. pose proof (_send_this method params false st) as H. rewrite Hsend in H. apply H. Qed.

Lemma sent_files : files (world st1) = files (world st).
Proof. pose proof (_send_this method params false st) as H. rewrite Hsend in H. apply H. Qed.

Lemma sent_fault : fsFault (world st1) = fsFault (world st).
Proof. pose proof (_send_this method params false st) as H. rewrite Hsend in H. apply H. Qed.

Lemma sent_calls : (requestCalls (world st) < requestCalls (world st1))%nat.
Proof. pose proof (_send_this method params false st) as H. rewrite Hsend in H. apply H. Qed.

Lemma fetch_decode_fails err :
  decode raw tType = Throw err ->
  fetchFromTransport key method params tType getMax st = (Throw err, st1).
Proof. intros Hdec. unfold fetchFromTransport. run. rewrite Hsend, Hdec. reflexivity. Qed.

Lemma fetch_not_cacheable d :
  decode raw tType = Normal d ->
  _canBeCached (this st) (getMax d) = Normal false ->
  fetchFromTransport key method params tType getMax st = (Normal d, st1).
Proof.
  intros Hdec Hno. unfold fetchFromTransport. run. rewrite Hsend, Hdec, Hno.
  reflexivity.
Qed.

Lemma fetch_policy_throws d err :
  decode raw tType = Normal d ->
  _canBeCached (this st) (getMax d) = Throw err ->
  fetchFromTransport key method params tType getMax st = (Throw err, st1).
Proof.
  intros Hdec Hno. unfold fetchFromTransport. run. rewrite Hsend, Hdec, Hno.
  reflexivity.
Qed.

Lemma fetch_cacheable_memory_only d :
  decode raw tType = Normal d ->
  _canBeCached (this st) (getMax d) = Normal true ->
  _forkCachePath (this st) = None ->
  fetchFromTransport key method params tType getMax st = (Normal d, cached key d st1).
Proof.
  intros Hdec Hyes Hnone. unfold fetchFromTransport. run.
  rewrite Hsend, Hdec, Hyes. unfold _isCacheToDiskEnabled. rewrite Hnone.
  reflexivity.
Qed.

Lemma fetch_cacheable_disk d forkCachePath :
  decode raw tType = Normal d ->
  _canBeCached (this st) (getMax d) = Normal true ->
  _forkCachePath (this st) = Some forkCachePath ->
  fetchFromTransport key method params tType getMax st =
    (match fst (_storeInDiskCache key raw (cached key d st1)) with
     | Normal _ => Normal d
     | Throw err => Throw err
     end,
     snd (_storeInDiskCache key raw (cached key d st1))).
Proof.
  intros Hdec Hyes Hsome. unfold fetchFromTransport. run.
  rewrite Hsend, Hdec, Hyes. unfold _isCacheToDiskEnabled. rewrite Hsome.
  change {| this := set_cache <[key:=d]> (this st1); world := world st1 |}
    with (cached key d st1).
  destruct (_storeInDiskCache key raw (cached key d st1)) as [[[] | err] st2];
    reflexivity.
Qed.

End TransportPath.

Lemma fetch_send_fails key method params tType getMax st st1 err :
  _send method params false st = (Throw err, st1) ->
  fetchFromTransport key method params tType getMax st = (Throw err, st1).
Proof. intros Hsend. unfold fetchFromTransport. run. rewrite Hsend. reflexivity. Qed.

(** Every run of steps 4 to 7 reaches the transport. *)
Lemma fetch_calls key method params tType getMax st :
  (requestCalls (world st)
   < requestCalls (world (snd (fetchFromTransport key method params tType getMax st))))%nat.
Proof.
  destruct (_send method params false st) as [[raw | err] st1] eqn:Hsend.
  - pose proof (sent_calls _ _ _ _ _ Hsend) as Hcalls.
    pose proof (sent_this _ _ _ _ _ Hsend) as Hthis.
    destruct (decode raw tType) as [d | err] eqn:Hdec.
    + destruct (_canBeCached (this st) (getMax d)) as [[|] | err] eqn:Hcan.
      * destruct (_forkCachePath (this st)) as [forkCachePath |] eqn:Hpath.
        -- rewrite (fetch_cacheable_disk key _ _ _ getMax _ _ _ Hsend d forkCachePath)
             by assumption.
           cbn [snd].
           destruct (_storeInDiskCache_spec key raw (cached key d st1) forkCachePath)
             as (p & _ & _ & _ & Hsame & _).
           { cbn. rewrite Hthis. exact Hpath. }
           rewrite Hsame. exact Hcalls.
        -- rewrite (fetch_cacheable_memory_only key _ _ _ getMax _ _ _ Hsend d)
             by assumption.
           exact Hcalls.
      * rewrite (fetch_not_cacheable key _ _ _ getMax _ _ _ Hsend d) by assumption.
        exact Hcalls.
      * rewrite (fetch_policy_throws key _ _ _ getMax _ _ _ Hsend d err) by assumption.
        exact Hcalls.
    + rewrite (fetch_decode_fails key _ _ _ getMax _ _ _ Hsend err) by assumption.
      exact Hcalls.
  - rewrite (fetch_send_fails key _ _ tType getMax _ _ _ Hsend). cbn [snd].
    pose proof (_send_this method params false st) as H. rewrite Hsend in H.
    apply H.
Qed.

(** An answer that the policy rejects leaves the state as the transport
    left it. *)
Lemma fetch_never_cacheable key method params tType getMax st :
  (forall d, _canBeCached (this st) (getMax d) <> Normal true) ->
  snd (fetchFromTransport key method params tType getMax st)
    = snd (_send method params false st).
Proof.
  intros Hno.
  destruct (_send method params false st) as [[raw | err] st1] eqn:Hsend.
  - destruct (decode raw tType) as [d | err] eqn:Hdec.
    + destruct (_canBeCached (this st) (getMax d)) as [[|] | err] eqn:Hcan.
      * destruct (Hno d Hcan).
      * rewrite (fetch_not_cacheable key _ _ _ getMax _ _ _ Hsend d); auto.
      * rewrite (fetch_policy_throws key _ _ _ getMax _ _ _ Hsend d err); auto.
    + rewrite (fetch_decode_fails key _ _ _ getMax _ _ _ Hsend err); auto.
  - rewrite (fetch_send_fails key _ _ tType getMax _ _ _ Hsend). reflexivity.
Qed.

Lemma _getFromDiskCache_state key tType st :
  snd (_getFromDiskCache key tType st) = st.
Proof.
  unfold _getFromDiskCache. run.
  destruct (_getRawFromDiskCache_total key st) as [v ->].
  destruct (is_defined v); [| reflexivity].
  destruct (decode v tType); reflexivity.
Qed.

Lemma memory_hit_lookup (m : gmap string any) key :
  is_defined (default JsUndefined (m !! key)) = true ->
  m !! key = Some (default JsUndefined (m !! key)).
Proof. destruct (m !! key); [reflexivity | discriminate]. Qed.

Lemma _performBatch_miss JSON_stringify hash batch getMax st :
  let key := _getBatchCacheKey JSON_stringify hash (this st) batch in
  memory_miss st key -> disk_miss st key ->
  _performBatch JSON_stringify hash batch getMax st
    = batchFromTransport key batch getMax st.
Proof.
  intros key Hmem Hdisk. unfold _performBatch, batchFromTransport. run.
  fold key. unfold memory_miss in Hmem. rewrite Hmem. cbn [is_defined].
  unfold _getBatchFromDiskCache. run. rewrite (disk_miss_eq _ _ Hdisk).
  cbn [is_defined]. reflexivity.
Qed.

Lemma _getCacheKey_same_network JSON_stringify hash c c' method params :
  _networkId c' = _networkId c ->
  _getCacheKey JSON_stringify hash c' method params
  = _getCacheKey JSON_stringify hash c method params.
Proof. unfold _getCacheKey, getNetworkId. intros ->. reflexivity. Qed.

(** Each lookup by hash is [_perform] on its request, with a codec that
    lets [null] through and the extractor of a block-number field. *)
Lemma lookup_call_perform JSON_stringify hash bufferToHex
    rpcBlock rpcBlockWithTransactions rpcTransaction rpcTransactionReceipt l :
  exists codec field,
    lookup_call JSON_stringify hash bufferToHex
      rpcBlock rpcBlockWithTransactions rpcTransaction rpcTransactionReceipt l
    = _perform JSON_stringify hash (lookup_method l) (lookup_params bufferToHex l)
        (nullable codec) (fun v => optional_BN_field field v).
Proof.
  destruct l as [blockHash [|] | transactionHash | transactionHash];
    eexists; eexists; reflexivity.
Qed.

Section Caching.

Variable JSON_stringify : list any -> string.
Variable createNonCryptographicHashBasedIdentifier : string -> string.

Local Abbreviation _getCacheKey :=
  (_getCacheKey JSON_stringify createNonCryptographicHashBasedIdentifier).
Local Abbreviation _perform :=
  (_perform JSON_stringify createNonCryptographicHashBasedIdentifier).

(** The three ways of [_perform]: memory, disk, transport. *)
Lemma _perform_cases method params tType getMax st :
  let key := _getCacheKey (this st) method params in
  _perform method params tType getMax st =
    if is_defined (default JsUndefined (_cache (this st) !! key))
    then (Normal (default JsUndefined (_cache (this st) !! key)), st)
    else match fst (_getFromDiskCache key tType st) with
         | Normal diskCachedResult =>
             if is_defined diskCachedResult
             then (Normal diskCachedResult, cached key diskCachedResult st)
             else fetchFromTransport key method params tType getMax st
         | Throw err => (Throw err, st)
         end.
Proof.
  intros key. unfold _perform, fetchFromTransport. run. fold key.
  destruct (is_defined (default JsUndefined (_cache (this st) !! key))); [reflexivity |].
  pose proof (_getFromDiskCache_state key tType st) as Hst.
  destruct (_getFromDiskCache key tType st) as [[v | err] st'];
    cbn [fst snd] in *; subst st'; [| reflexivity].
  destruct (is_defined v); reflexivity.
Qed.

(** A key already in memory is answered from memory: no transport call,
    no read of the disk, no decoding, whatever codec is passed. *)
Lemma _perform_hit method params tType getMax st d :
  _cache (this st) !! _getCacheKey (this st) method params = Some d ->
  is_defined d = true ->
  _perform method params tType getMax st = (Normal d, st).
Proof.
  intros Hhit Hdef. rewrite _perform_cases. cbv zeta. rewrite Hhit. simpl.
  rewrite Hdef. reflexivity.
Qed.

(** ** The claims about a single request *)

(** C1. The eligibility check returns false for an absent block number;
    for a block number that is there it returns true exactly when the
    number is at most [latestBlockNumberOnCreation - maxReorg] (and is one
    that [BN.toNumber] can give: on a number of more than 53 bits the
    check throws, so it returns nothing; for a block number, which is not
    negative, and a threshold below [2^53] this is the threshold test
    alone).  For every block number above
    that threshold, a response fetched from the transport is not admitted
    to any cache: the in-memory cache and the persistent store are as they
    were, the call returning the decoded response, or failing with the
    error of [toNumber] when the number has more than 53 bits. *)
Theorem C1_eligibility_threshold (st : State) :
  let c := this st in
  let threshold := _latestBlockNumberOnCreation c - _maxReorg c in
  _canBeCached c None = Normal false /\
  (forall blockNumber,
     _canBeCached c (Some blockNumber) =
       if Z.abs blockNumber <? 2 ^ 53 then Normal (blockNumber <=? threshold)
       else Throw (ErrorInstance "Number can only safely store up to 53 bits")) /\
  (forall blockNumber,
     _canBeCached c (Some blockNumber) = Normal true <->
     blockNumber <= threshold /\ Z.abs blockNumber < 2 ^ 53) /\
  (forall blockNumber,
     0 <= blockNumber -> threshold < 2 ^ 53 ->
     (_canBeCached c (Some blockNumber) = Normal true <-> blockNumber <= threshold)) /\
  (forall method params tType getMax raw st1 d blockNumber,
     memory_miss st (_getCacheKey c method params) ->
     disk_miss st (_getCacheKey c method params) ->
     _send method params false st = (Normal raw, st1) ->
     decode raw tType = Normal d ->
     getMax d = Some blockNumber ->
     blockNumber > threshold ->
     _perform method params tType getMax st =
       (if Z.abs blockNumber <? 2 ^ 53 then Normal d
        else Throw (ErrorInstance "Number can only safely store up to 53 bits"),
        st1) /\
     _cache (this st1) = _cache c /\
     files (world st1) = files (world st)).
Proof.
  cbv zeta.
  assert (Hiff : forall blockNumber,
            _canBeCached (this st) (Some blockNumber) = Normal true <->
            blockNumber <= _latestBlockNumberOnCreation (this st) - _maxReorg (this st) /\
            Z.abs blockNumber < 2 ^ 53).
  { intros blockNumber. rewrite _canBeCached_Some.
    destruct (Z.ltb_spec (Z.abs blockNumber) (2 ^ 53)) as [Hfits | Hbig].
    + split.
      * intros [= H]. apply Z.leb_le in H. auto.
      * intros [H _]. apply Z.leb_le in H. rewrite H. reflexivity.
    + split; [discriminate | lia]. }
  split; [reflexivity |]. split; [apply _canBeCached_Some |].
  split; [exact Hiff |]. split.
  - intros blockNumber Hpos Hthreshold. rewrite Hiff. split; [tauto | lia].
  - intros method params tType getMax raw st1 d blockNumber Hmem Hdisk Hsend Hdec Hmax Habove.
    rewrite _perform_miss by assumption.
    rewrite (sent_this _ _ _ _ _ Hsend), (sent_files _ _ _ _ _ Hsend).
    split; [| auto].
    pose proof (_canBeCached_Some (this st) blockNumber) as Hcan. rewrite <- Hmax in Hcan.
    destruct (Z.abs blockNumber <? 2 ^ 53).
    + apply (fetch_not_cacheable _ _ _ _ getMax _ _ _ Hsend d Hdec).
      rewrite Hcan. f_equal. apply Z.leb_gt. lia.
    + apply (fetch_policy_throws _ _ _ _ getMax _ _ _ Hsend d _ Hdec Hcan).
Qed.

(** C6. When the raw result of the transport does not decode, the error
    of the decoder is the outcome of the call, and neither the in-memory
    cache nor the persistent store has changed. *)
Theorem C6_decode_failure_changes_no_cache
    (method : string) (params : list any) (tType : any -> completion any)
    (getMax : any -> option Z) (st st1 : State) (raw : any) (err : thrown) :
  memory_miss st (_getCacheKey (this st) method params) ->
  disk_miss st (_getCacheKey (this st) method params) ->
  _send method params false st = (Normal raw, st1) ->
  decode raw tType = Throw err ->
  _perform method params tType getMax st = (Throw err, st1) /\
  _cache (this st1) = _cache (this st) /\
  files (world st1) = files (world st).
Proof.
  intros Hmem Hdisk Hsend Hdec.
  rewrite _perform_miss by assumption.
  rewrite (fetch_decode_fails _ _ _ _ getMax _ _ _ Hsend err Hdec).
  rewrite (sent_this _ _ _ _ _ Hsend), (sent_files _ _ _ _ _ Hsend). auto.
Qed.


(** C9. When the policy accepts a response of the transport, the decoded
    value is what the in-memory cache holds under the key, and the raw
    payload is what [writeJSON] writes to the file of the key, and that
    only when a cache path is configured: with a path, the file of the
    key holds the raw payload after the call, unless the file system
    refuses the folder (asked for once per instance) or the file, in which
    case no file has changed and the refusal is the outcome of the call;
    without a path, no file has changed.  When the policy rejects, or the
    check itself throws, neither store is written. *)
Theorem C9_decoded_in_memory_raw_on_disk
    (method : string) (params : list any) (tType : any -> completion any)
    (getMax : any -> option Z) (st st1 : State) (raw d : any) :
  let key := _getCacheKey (this st) method params in
  let outcome := _perform method params tType getMax st in
  memory_miss st key ->
  disk_miss st key ->
  _send method params false st = (Normal raw, st1) ->
  decode raw tType = Normal d ->
  (_canBeCached (this st) (getMax d) = Normal false ->
   outcome = (Normal d, st1) /\
   _cache (this (snd outcome)) = _cache (this st) /\
   files (world (snd outcome)) = files (world st)) /\
  (forall err, _canBeCached (this st) (getMax d) = Throw err ->
   outcome = (Throw err, st1) /\
   _cache (this (snd outcome)) = _cache (this st) /\
   files (world (snd outcome)) = files (world st)) /\
  (_canBeCached (this st) (getMax d) = Normal true ->
   _cache (this (snd outcome)) = <[key := d]> (_cache (this st)) /\
   match _forkCachePath (this st) with
   | None =>
       fst outcome = Normal d /\ files (world (snd outcome)) = files (world st)
   | Some forkCachePath =>
       let folder :=
         path_join forkCachePath ("network-" +:+ pretty (_networkId (this st))) in
       let p := path_join folder ("request-" +:+ key +:+ ".json") in
       _getDiskCachePathForKey (this st) key = Normal p /\
       match (if bool_decide (_scopedForkCacheFolderCreated (this st) = Some true)
              then None else fsFault (world st) folder) with
       | Some err =>
           fst outcome = Throw err /\ files (world (snd outcome)) = files (world st)
       | None =>
           match fsFault (world st) p with
           | Some err =>
               fst outcome = Throw err /\
               files (world (snd outcome)) = files (world st)
           | None =>
               fst outcome = Normal d /\
               files (world (snd outcome)) = <[p := JsonFile raw]> (files (world st))
           end
       end
   end).
Proof.
  intros key outcome Hmem Hdisk Hsend Hdec. subst outcome.
  rewrite _perform_miss by assumption. fold key.
  pose proof (sent_this _ _ _ _ _ Hsend) as Hthis.
  pose proof (sent_files _ _ _ _ _ Hsend) as Hfiles.
  pose proof (sent_fault _ _ _ _ _ Hsend) as Hfault.
  split; [| split].
  - intros Hno.
    rewrite (fetch_not_cacheable _ _ _ _ getMax _ _ _ Hsend d Hdec Hno).
    cbn [snd]. rewrite Hthis, Hfiles. auto.
  - intros err Herr.
    rewrite (fetch_policy_throws _ _ _ _ getMax _ _ _ Hsend d err Hdec Herr).
    cbn [snd]. rewrite Hthis, Hfiles. auto.
  - intros Hyes. destruct (_forkCachePath (this st)) as [forkCachePath |] eqn:Hpath.
    + rewrite (fetch_cacheable_disk key _ _ _ getMax _ _ _ Hsend d forkCachePath)
        by assumption.
      cbn [fst snd].
      rewrite (_storeInDiskCache_run key raw (cached key d st1) forkCachePath)
        by (cbn; rewrite Hthis; exact Hpath).
      cbv zeta. cbn [cached this world set_cache _scopedForkCacheFolderCreated _networkId].
      rewrite Hthis, Hfault.
      unfold _getDiskCachePathForKey. rewrite Hpath.
      case_bool_decide as Hflag.
      * destruct (fsFault (world st) _) as [err |]; cbn; rewrite ?Hthis, ?Hfiles; auto.
      * destruct (fsFault (world st) (path_join _ (_ +:+ pretty _))) as [err |].
        { cbn. rewrite ?Hthis, ?Hfiles. auto. }
        destruct (fsFault (world st) _) as [err |]; cbn; rewrite ?Hthis, ?Hfiles; auto.
    + rewrite (fetch_cacheable_memory_only key _ _ _ getMax _ _ _ Hsend d)
        by assumption.
      cbn. rewrite Hthis, Hfiles. auto.
Qed.

(** ** Repeated requests *)

Lemma memory_miss_frame st st' key :
  _cache (this st') = _cache (this st) -> memory_miss st key -> memory_miss st' key.
Proof. unfold memory_miss. intros ->. auto. Qed.

(** A request whose answers the policy always rejects leaves the client
    and the files as they were, and reaches the transport. *)
Lemma _perform_uncacheable_step method params tType getMax st :
  let key := _getCacheKey (this st) method params in
  memory_miss st key -> disk_miss st key ->
  (forall d, _canBeCached (this st) (getMax d) <> Normal true) ->
  this (snd (_perform method params tType getMax st)) = this st /\
  files (world (snd (_perform method params tType getMax st))) = files (world st) /\
  (requestCalls (world st)
   < requestCalls (world (snd (_perform method params tType getMax st))))%nat.
Proof.
  intros key Hmem Hdisk Hno. rewrite _perform_miss by assumption.
  rewrite fetch_never_cacheable by assumption.
  destruct (_send_this method params false st) as (H1 & H2 & _ & H3). auto.
Qed.

Lemma _perform_uncacheable_repeat method params tType getMax n :
  forall st,
  memory_miss st (_getCacheKey (this st) method params) ->
  disk_miss st (_getCacheKey (this st) method params) ->
  (forall d, _canBeCached (this st) (getMax d) <> Normal true) ->
  this (repeat_call n (_perform method params tType getMax) st) = this st /\
  files (world (repeat_call n (_perform method params tType getMax) st))
    = files (world st) /\
  (requestCalls (world st) + n
   <= requestCalls (world (repeat_call n (_perform method params tType getMax) st)))%nat.
Proof.
  induction n as [|n IH]; intros st Hmem Hdisk Hno.
  - cbn. repeat split. lia.
  - cbn [repeat_call].
    destruct (_perform_uncacheable_step method params tType getMax st Hmem Hdisk Hno)
      as (Hthis & Hfiles & Hcalls).
    set (st' := snd (_perform method params tType getMax st)) in *.
    destruct (IH st') as (Hthis' & Hfiles' & Hcalls').
    + rewrite Hthis. eapply memory_miss_frame; [| exact Hmem]. rewrite Hthis. reflexivity.
    + rewrite Hthis. eapply disk_miss_frame; [| | | exact Hdisk];
        rewrite ?Hthis; auto.
    + rewrite Hthis. exact Hno.
    + rewrite Hthis', Hfiles', Hthis, Hfiles. repeat split. lia.
Qed.

(** After a successful request whose answers the policy always accepts,
    the answer is in memory under the key of the request. *)
Lemma _perform_success_cached method params tType getMax st d st1 :
  (forall v, _canBeCached (this st) (getMax v) <> Normal false) ->
  _perform method params tType getMax st = (Normal d, st1) ->
  is_defined d = true ->
  _cache (this st1) !! _getCacheKey (this st) method params = Some d /\
  same_config (this st) (this st1).
Proof.
  intros Hyes Hrun Hdef. rewrite _perform_cases in Hrun. cbv zeta in Hrun.
  set (key := _getCacheKey (this st) method params) in *.
  destruct (is_defined (default JsUndefined (_cache (this st) !! key))) eqn:Hmem.
  { injection Hrun as <- <-. split; [apply memory_hit_lookup, Hmem | apply same_config_refl]. }
  destruct (fst (_getFromDiskCache key tType st)) as [v | err]; [| discriminate].
  destruct (is_defined v) eqn:Hv.
  { injection Hrun as <- <-. split; [apply lookup_insert_eq | apply same_config_cached]. }
  destruct (_send method params false st) as [[raw | err] st'] eqn:Hsend.
  2: { rewrite (fetch_send_fails key _ _ tType getMax _ _ _ Hsend) in Hrun. discriminate. }
  pose proof (sent_this _ _ _ _ _ Hsend) as Hthis.
  destruct (decode raw tType) as [dd | err] eqn:Hdec.
  2: { rewrite (fetch_decode_fails key _ _ _ getMax _ _ _ Hsend err Hdec) in Hrun.
       discriminate. }
  destruct (_canBeCached (this st) (getMax dd)) as [[|] | err] eqn:Hcan.
  2: { destruct (Hyes dd Hcan). }
  2: { rewrite (fetch_policy_throws key _ _ _ getMax _ _ _ Hsend dd err Hdec Hcan) in Hrun.
       discriminate. }
  destruct (_forkCachePath (this st)) as [forkCachePath |] eqn:Hpath.
  - rewrite (fetch_cacheable_disk key _ _ _ getMax _ _ _ Hsend dd forkCachePath Hdec
               Hcan Hpath) in Hrun.
    destruct (_storeInDiskCache_spec key raw (cached key dd st') forkCachePath)
      as (p & _ & Hcache & Hconf & _ & _).
    { cbn. rewrite Hthis. exact Hpath. }
    destruct (fst (_storeInDiskCache key raw (cached key dd st'))); [| discriminate].
    injection Hrun as <- <-. rewrite Hcache. cbn.
    split; [apply lookup_insert_eq |].
    eapply same_config_trans; [| exact Hconf].
    rewrite <- Hthis. apply same_config_cached.
  - rewrite (fetch_cacheable_memory_only key _ _ _ getMax _ _ _ Hsend dd Hdec
               Hcan Hpath) in Hrun.
    injection Hrun as <- <-.
    split; [apply lookup_insert_eq |]. rewrite <- Hthis. apply same_config_cached.
Qed.

(** ** The public operations *)

Section Facade.

Variable bufferToHex : list Z -> string.
Variable numberToRpcQuantity : Z -> string.
Variables rpcData : any -> completion any.
Variables rpcBlock rpcBlockWithTransactions : any -> completion any.
Variables rpcTransaction rpcTransactionReceipt : any -> completion any.

Local Abbreviation getStorageAt :=
  (getStorageAt JSON_stringify createNonCryptographicHashBasedIdentifier
     bufferToHex numberToRpcQuantity rpcData).
Local Abbreviation storageParams := (storageParams bufferToHex numberToRpcQuantity).
Local Abbreviation lookup_call :=
  (lookup_call JSON_stringify createNonCryptographicHashBasedIdentifier bufferToHex
     rpcBlock rpcBlockWithTransactions rpcTransaction rpcTransactionReceipt).
Local Abbreviation lookup_params := (lookup_params bufferToHex).

Lemma getStorageAt_perform address position blockNumber :
  getStorageAt address position blockNumber
  = _perform "eth_getStorageAt" (storageParams address position blockNumber)
      rpcData (fun _ => Some blockNumber).
Proof. reflexivity. Qed.

(** C3. With [latestBlockNumberOnCreation = 123] and [maxReorg = 3]: a
    read of storage at block 121 is never cached, so that after any
    number of identical reads the next one reaches the transport again;
    a read at block 120 is in memory after the first successful call, so
    that the same read again returns the cached decoded value and leaves
    the state, the count of transport calls included, as it was, whatever
    the codec. *)
Theorem C3_window_of_123_and_3 (address position : list Z) (st : State) :
  _latestBlockNumberOnCreation (this st) = 123 ->
  _maxReorg (this st) = 3 ->
  (memory_miss st (_getCacheKey (this st) "eth_getStorageAt"
                     (storageParams address position 121)) ->
   disk_miss st (_getCacheKey (this st) "eth_getStorageAt"
                   (storageParams address position 121)) ->
   forall n,
     let stn := repeat_call n (getStorageAt address position 121) st in
     _cache (this stn) = _cache (this st) /\
     files (world stn) = files (world st) /\
     (requestCalls (world stn)
      < requestCalls (world (snd (getStorageAt address position 121 stn))))%nat) /\
  (forall d st1,
     getStorageAt address position 120 st = (Normal d, st1) ->
     is_defined d = true ->
     _cache (this st1) !! _getCacheKey (this st1) "eth_getStorageAt"
                            (storageParams address position 120) = Some d /\
     getStorageAt address position 120 st1 = (Normal d, st1) /\
     forall tType getMax,
       _perform "eth_getStorageAt" (storageParams address position 120) tType getMax st1
       = (Normal d, st1)).
Proof.
  intros Hlatest Hmax. split.
  - intros Hmem Hdisk n stn. subst stn.
    change (getStorageAt address position 121)
      with (_perform "eth_getStorageAt" (storageParams address position 121)
              rpcData (fun _ => Some 121)).
    assert (Hno : forall c, _latestBlockNumberOnCreation c = 123 -> _maxReorg c = 3 ->
                  forall d : any, _canBeCached c ((fun _ => Some 121) d) <> Normal true).
    { intros c H1 H2 d. unfold _canBeCached, _canBeReorgedOut. rewrite H1, H2.
      discriminate. }
    destruct (_perform_uncacheable_repeat "eth_getStorageAt"
                (storageParams address position 121) rpcData (fun _ => Some 121) n st
                Hmem Hdisk (Hno _ Hlatest Hmax)) as (Hthis & Hfiles & _).
    rewrite Hthis.
    split; [reflexivity |]. split; [exact Hfiles |].
    apply _perform_uncacheable_step.
    + rewrite Hthis. eapply memory_miss_frame; [| exact Hmem]. rewrite Hthis. reflexivity.
    + rewrite Hthis. eapply disk_miss_frame; [| | | exact Hdisk]; rewrite ?Hthis; auto.
    + rewrite Hthis. apply Hno; assumption.
  - intros d st1 Hrun Hdef. rewrite getStorageAt_perform in Hrun.
    assert (Hhit : _cache (this st1) !! _getCacheKey (this st1) "eth_getStorageAt"
                     (storageParams address position 120) = Some d).
    { assert (Hyes : forall v : any,
                _canBeCached (this st) ((fun _ => Some 120) v) <> Normal false).
      { intros v. unfold _canBeCached, _canBeReorgedOut.
        rewrite Hlatest, Hmax. discriminate. }
      destruct (_perform_success_cached _ _ _ _ _ _ _ Hyes Hrun Hdef)
        as (Hcached & _ & Hnet & _).
      rewrite (_getCacheKey_same_network _ _ _ _ _ _ Hnet). exact Hcached. }
    split; [exact Hhit |].
    split; [rewrite getStorageAt_perform |]; intros; apply _perform_hit; assumption.
Qed.

(** C8. A lookup by hash of a block, a transaction or a receipt that the
    transport answers with [null] returns [null] and not an error; nothing
    is added to the in-memory cache or to the persistent store, and the
    same lookup made again reaches the transport again. *)
Theorem C8_nothing_found_is_null_and_not_cached (l : lookup) (st st1 : State) :
  let key := _getCacheKey (this st) (lookup_method l) (lookup_params l) in
  memory_miss st key ->
  disk_miss st key ->
  _send (lookup_method l) (lookup_params l) false st = (Normal JsNull, st1) ->
  lookup_call l st = (Normal JsNull, st1) /\
  _cache (this st1) = _cache (this st) /\
  files (world st1) = files (world st) /\
  (requestCalls (world st1) < requestCalls (world (snd (lookup_call l st1))))%nat.
Proof.
  intros key Hmem Hdisk Hsend.
  pose proof (sent_this _ _ _ _ _ Hsend) as Hthis.
  pose proof (sent_files _ _ _ _ _ Hsend) as Hfiles.
  assert (Hmem1 : memory_miss st1 (_getCacheKey (this st1) (lookup_method l) (lookup_params l))).
  { rewrite Hthis. eapply memory_miss_frame; [| exact Hmem]. rewrite Hthis. reflexivity. }
  assert (Hdisk1 : disk_miss st1 (_getCacheKey (this st1) (lookup_method l) (lookup_params l))).
  { rewrite Hthis. eapply disk_miss_frame; [| | | exact Hdisk]; rewrite ?Hthis; auto. }
  assert (Hgen : forall codec field,
            _perform (lookup_method l) (lookup_params l) (nullable codec)
              (fun v => optional_BN_field field v) st = (Normal JsNull, st1) /\
            (requestCalls (world st1)
             < requestCalls (world (snd (_perform (lookup_method l) (lookup_params l)
                                           (nullable codec)
                                           (fun v => optional_BN_field field v) st1))))%nat).
  { intros codec field. split.
    - rewrite _perform_miss by assumption.
      apply (fetch_not_cacheable _ _ _ _ _ _ _ _ Hsend JsNull); reflexivity.
    - rewrite _perform_miss by assumption. apply fetch_calls. }
  rewrite Hthis.
  destruct (lookup_call_perform JSON_stringify createNonCryptographicHashBasedIdentifier
              bufferToHex rpcBlock rpcBlockWithTransactions rpcTransaction
              rpcTransactionReceipt l) as (codec & field & ->).
  split; [apply Hgen | split; [reflexivity | split; [exact Hfiles | apply Hgen]]].
Qed.

End Facade.

End Caching.

(** ** The claims on the fake collaborators *)

Lemma C1_witness :
  let st := Fake.start Fake.fakeProvider in
  let ps := storageParams Fake.bufferToHex Fake.numberToRpcQuantity
              Fake.DAI_ADDRESS Fake.DAI_TOTAL_SUPPLY_STORAGE_POSITION 121 in
  let run bn :=
    _perform Fake.stringify Fake.hash "eth_getStorageAt" ps Fake.rpcData
      (fun _ => Some bn) st in
  (121 > _latestBlockNumberOnCreation (this st) - _maxReorg (this st) /\
   run 121 = (Normal Fake.decoded1, after_calls 1 st) /\
   _cache (this (after_calls 1 st)) = _cache (this st) /\
   files (world (after_calls 1 st)) = files (world st)) /\
  (2 ^ 53 > _latestBlockNumberOnCreation (this st) - _maxReorg (this st) /\
   run (2 ^ 53)
     = (Throw (ErrorInstance "Number can only safely store up to 53 bits"),
        after_calls 1 st) /\
   _cache (this (after_calls 1 st)) = _cache (this st) /\
   files (world (after_calls 1 st)) = files (world st)).
Proof.
  intros st ps run.
  destruct (C1_eligibility_threshold Fake.stringify Fake.hash st) as (_ & _ & _ & _ & H).
  split; (split; [reflexivity |]).
  - apply (H "eth_getStorageAt" ps Fake.rpcData (fun _ => Some 121)
             Fake.response1 (after_calls 1 st) Fake.decoded1 121);
      vm_compute; reflexivity.
  - apply (H "eth_getStorageAt" ps Fake.rpcData (fun _ => Some (2 ^ 53))
             Fake.response1 (after_calls 1 st) Fake.decoded1 (2 ^ 53));
      vm_compute; reflexivity.
Defined.

Lemma C3_witness :
  let st := Fake.start Fake.fakeProvider in
  let stn := repeat_call 2 (Fake.getStorageAt 121) st in
  let st1 := snd (Fake.getStorageAt 120 st) in
  (_cache (this stn) = _cache (this st) /\
   files (world stn) = files (world st) /\
   (requestCalls (world stn)
    < requestCalls (world (snd (Fake.getStorageAt 121 stn))))%nat) /\
  Fake.getStorageAt 120 st1 = (Normal Fake.decoded1, st1).
Proof.
  intros st stn st1.
  destruct (C3_window_of_123_and_3 Fake.stringify Fake.hash Fake.bufferToHex
              Fake.numberToRpcQuantity Fake.rpcData
              Fake.DAI_ADDRESS Fake.DAI_TOTAL_SUPPLY_STORAGE_POSITION st
              eq_refl eq_refl) as [H121 H120].
  split.
  - apply (H121 ltac:(vm_compute; reflexivity) ltac:(vm_compute; reflexivity) 2%nat).
  - apply (H120 Fake.decoded1 st1); vm_compute; reflexivity.
Defined.

Lemma C6_witness :
  let st := Fake.start Fake.nullProvider in
  let ps := storageParams Fake.bufferToHex Fake.numberToRpcQuantity
              Fake.DAI_ADDRESS Fake.DAI_TOTAL_SUPPLY_STORAGE_POSITION 120 in
  decode JsNull Fake.rpcData = Throw (ErrorInstance "Invalid value supplied to DATA") /\
  _perform Fake.stringify Fake.hash "eth_getStorageAt" ps Fake.rpcData
    (fun _ => Some 120) st
    = (Throw (ErrorInstance "Invalid value supplied to DATA"), after_calls 1 st) /\
  _cache (this (after_calls 1 st)) = _cache (this st) /\
  files (world (after_calls 1 st)) = files (world st).
Proof.
  intros st ps. split; [reflexivity |].
  apply (C6_decode_failure_changes_no_cache Fake.stringify Fake.hash
           "eth_getStorageAt" ps Fake.rpcData (fun _ => Some 120) st
           (after_calls 1 st) JsNull);
    vm_compute; reflexivity.
Defined.


Lemma C8_witness :
  let st := Fake.start Fake.nullProvider in
  let l := TransactionByHash [222; 173; 190; 239] in
  Fake.lookup_call l st = (Normal JsNull, after_calls 1 st) /\
  _cache (this (after_calls 1 st)) = _cache (this st) /\
  files (world (after_calls 1 st)) = files (world st) /\
  (requestCalls (world (after_calls 1 st))
   < requestCalls (world (snd (Fake.lookup_call l (after_calls 1 st)))))%nat.
Proof.
  intros st l.
  apply (C8_nothing_found_is_null_and_not_cached Fake.stringify Fake.hash
           Fake.bufferToHex Fake.rpcEntity Fake.rpcEntity Fake.rpcEntity Fake.rpcEntity
           l st (after_calls 1 st));
    vm_compute; reflexivity.
Defined.

Lemma C9_witness :
  let st := Fake.startOnDisk Fake.fakeProvider ∅ in
  let ps := storageParams Fake.bufferToHex Fake.numberToRpcQuantity
              Fake.DAI_ADDRESS Fake.DAI_TOTAL_SUPPLY_STORAGE_POSITION in
  let outcome bn :=
    _perform Fake.stringify Fake.hash "eth_getStorageAt" (ps bn) Fake.rpcData
      (fun _ => Some bn) st in
  (_canBeCached (this st) (Some 121) = Normal false /\
   outcome 121 = (Normal Fake.decoded1, after_calls 1 st) /\
   _cache (this (snd (outcome 121))) = _cache (this st) /\
   files (world (snd (outcome 121))) = files (world st)) /\
  (_canBeCached (this st) (Some 120) = Normal true /\
   _cache (this (snd (outcome 120)))
     = <[Fake.storageKey 120 := Fake.decoded1]> (_cache (this st)) /\
   _getDiskCachePathForKey (this st) (Fake.storageKey 120)
     = Normal (Fake.storagePath 120) /\
   fst (outcome 120) = Normal Fake.decoded1 /\
   files (world (snd (outcome 120)))
     = <[Fake.storagePath 120 := JsonFile Fake.response1]> (files (world st))).
Proof.
  intros st ps outcome. split.
  - split; [reflexivity |].
    destruct (C9_decoded_in_memory_raw_on_disk Fake.stringify Fake.hash
                "eth_getStorageAt" (ps 121) Fake.rpcData (fun _ => Some 121) st
                (after_calls 1 st) Fake.response1 Fake.decoded1) as (Hno & _ & _);
      try (vm_compute; reflexivity).
    apply Hno. reflexivity.
  - split; [reflexivity |].
    destruct (C9_decoded_in_memory_raw_on_disk Fake.stringify Fake.hash
                "eth_getStorageAt" (ps 120) Fake.rpcData (fun _ => Some 120) st
                (after_calls 1 st) Fake.response1 Fake.decoded1) as (_ & _ & Hyes);
      try (vm_compute; reflexivity).
    apply Hyes. reflexivity.
Defined.

(** ** Cache keys *)

Lemma append_assoc (a b c : string) : (a +:+ b) +:+ c = a +:+ (b +:+ c).
Proof. induction a as [|x a IH]; [reflexivity |]. rewrite !append_String, IH. reflexivity. Qed.

Lemma append_empty_r (a : string) : a +:+ "" = a.
Proof. induction a as [|x a IH]; [reflexivity |]. rewrite append_String, IH. reflexivity. Qed.

Lemma length_append (a b : string) :
  String.length (a +:+ b) = (String.length a + String.length b)%nat.
Proof.
  induction a as [|x a IH]; [reflexivity |].
  rewrite append_String. cbn [String.length]. rewrite IH. reflexivity.
Qed.

Lemma append_cancel_l (a x y : string) : a +:+ x = a +:+ y -> x = y.
Proof.
  induction a as [|c a IH]; [auto |].
  rewrite !append_String. intros [= H]. auto.
Qed.

Lemma append_cancel_r (a b c : string) : a +:+ c = b +:+ c -> a = b.
Proof.
  revert b. induction a as [|d a IH]; intros [|e b] H.
  - reflexivity.
  - apply (f_equal String.length) in H.
    rewrite append_empty, length_append in H. cbn in H. lia.
  - apply (f_equal String.length) in H.
    rewrite append_empty, length_append in H. cbn in H. lia.
  - rewrite !append_String in H. injection H as <- H. f_equal. auto.
Qed.







Section Keys.

Variable JSON_stringify : list any -> string.
Variable createNonCryptographicHashBasedIdentifier : string -> string.

Local Abbreviation plaintext := (plaintextKey JSON_stringify).
Local Abbreviation cacheKey :=
  (_getCacheKey JSON_stringify createNonCryptographicHashBasedIdentifier).
Local Abbreviation batchCacheKey :=
  (_getBatchCacheKey JSON_stringify createNonCryptographicHashBasedIdentifier).



End Keys.

(** ** [JSON.stringify] *)



(** *** Scanning a text *)





(** *** Decimal numerals *)





(** *** String literals *)





(** *** Values *)








(** *** [JSON.stringify] tells JSON values apart *)




















Section KeysOfRequests.

Variable createNonCryptographicHashBasedIdentifier : string -> string.

Local Abbreviation plaintext := (plaintextKey JSON.stringify).
Local Abbreviation cacheKey :=
  (_getCacheKey JSON.stringify createNonCryptographicHashBasedIdentifier).


End KeysOfRequests.



(** ** Batches *)

Lemma batchKeyLoop_spec batch fakeMethod fakeParams :
  batchKeyLoop batch fakeMethod fakeParams
  = (fakeMethod +:+ concatMethods batch, (fakeParams ++ flattenParams batch)%list).
Proof.
  revert fakeMethod fakeParams. induction batch as [|entry rest IH]; intros m ps.
  - cbn. rewrite append_empty_r, app_nil_r. reflexivity.
  - cbn [batchKeyLoop]. rewrite IH. unfold concatMethods, flattenParams.
    cbn [fold_right map concat]. rewrite append_assoc, <- app_assoc. reflexivity.
Qed.

Lemma _getBatchCacheKey_spec JSON_stringify hash c batch :
  _getBatchCacheKey JSON_stringify hash c batch
  = _getCacheKey JSON_stringify hash c (concatMethods batch) (flattenParams batch).
Proof. unfold _getBatchCacheKey. rewrite batchKeyLoop_spec. reflexivity. Qed.




Lemma _sendBatch_frame batch isRetryCall st :
  exists k, snd (_sendBatch batch isRetryCall st) = after_batch_calls k st.
Proof.
  rewrite _sendBatch_spec. cbv zeta.
  destruct (sendBatch _ _ _) as [v | err]; [exists 1%nat; reflexivity |].
  destruct (_shouldRetry _ _ _); [exists 2%nat | exists 1%nat]; reflexivity.
Qed.

Lemma _performBatch_hit JSON_stringify hash batch getMax st v :
  _cache (this st) !! _getBatchCacheKey JSON_stringify hash (this st) batch = Some v ->
  is_defined v = true ->
  _performBatch JSON_stringify hash batch getMax st = (Normal v, st).
Proof.
  intros Hhit Hdef. unfold _performBatch. run. rewrite Hhit. simpl.
  rewrite Hdef. reflexivity.
Qed.

Section BatchTransportPath.

Variables (key : string) (batch : list BatchEntry).
Variable getMax : list any -> option Z.
Variables (st st1 : State) (raws : list any).
Hypothesis Hsend : _sendBatch batch false st = (Normal raws, st1).

Lemma batch_sent_this : this st1 = this st /\ files (world st1) = files (world st).
Proof.
  destruct (_sendBatch_frame batch false st) as [k Hk]. rewrite Hsend in Hk.
  cbn in Hk. subst st1. split; reflexivity.
Qed.





Lemma batch_cacheable_memory_only ds :
  map_decode raws (map tType batch) = Normal ds ->
  _canBeCached (this st) (getMax ds) = Normal true ->
  _forkCachePath (this st) = None ->
  batchFromTransport key batch getMax st
    = (Normal (JsArray ds), cached key (JsArray ds) st1).
Proof.
  intros Hdec Hyes Hnone. unfold batchFromTransport. run.
  rewrite Hsend, Hdec, Hyes. unfold _isCacheToDiskEnabled. rewrite Hnone.
  reflexivity.
Qed.


End BatchTransportPath.

Section Batches.

Variable createNonCryptographicHashBasedIdentifier : string -> string.
Variable bufferToHex : list Z -> string.
Variable numberToRpcQuantity : Z -> string.
Variables rpcData rpcQuantity : any -> completion any.

Local Abbreviation cacheKey :=
  (_getCacheKey JSON.stringify createNonCryptographicHashBasedIdentifier).
Local Abbreviation batchCacheKey :=
  (_getBatchCacheKey JSON.stringify createNonCryptographicHashBasedIdentifier).
Local Abbreviation performBatch :=
  (_performBatch JSON.stringify createNonCryptographicHashBasedIdentifier).
Local Abbreviation accountDataBatch :=
  (accountDataBatch bufferToHex numberToRpcQuantity rpcData rpcQuantity).
Local Abbreviation getAccountData :=
  (getAccountData JSON.stringify createNonCryptographicHashBasedIdentifier
     bufferToHex numberToRpcQuantity rpcData rpcQuantity).


End Batches.


(** * Further properties of the client *)

(** ** The batch executor *)

(** X1. [_sendBatch] follows the retry policy of [_send]: one or two calls
    of [sendBatch], the second only on a first attempt against the flaky
    provider for a failure that is an [Error] whose message contains
    "header not found".  An answer of the first call is returned as it
    is; so is any other failure of the first call, one that misses a
    condition as well as a thrown value that is not an [Error], whatever
    its message; the retry sends the same batch and its outcome is the
    outcome of the call; the counter of single requests is not touched. *)
Theorem X1_sendBatch_retries_once
    (batch : list BatchEntry) (isRetryCall : bool) (st : State) :
  let provider := _httpProvider (this st) in
  let n := sendBatchCalls (world st) in
  let first := sendBatch provider n batch in
  let second := sendBatch provider (S n) batch in
  (snd (_sendBatch batch isRetryCall st) = after_batch_calls 1 st \/
   snd (_sendBatch batch isRetryCall st) = after_batch_calls 2 st) /\
  (snd (_sendBatch batch isRetryCall st) = after_batch_calls 2 st ->
   exists message, first = Throw (ErrorInstance message) /\
                   retry_conditions (this st) isRetryCall (ErrorInstance message)) /\
  (forall v, first = Normal v ->
     _sendBatch batch isRetryCall st = (Normal v, after_batch_calls 1 st)) /\
  (forall err, first = Throw err ->
     ~ retry_conditions (this st) isRetryCall err \/ (exists m, err = OtherValue m) ->
     _sendBatch batch isRetryCall st = (Throw err, after_batch_calls 1 st)) /\
  (forall message, first = Throw (ErrorInstance message) ->
     retry_conditions (this st) isRetryCall (ErrorInstance message) ->
     _sendBatch batch isRetryCall st = (second, after_batch_calls 2 st)) /\
  requestCalls (world (snd (_sendBatch batch isRetryCall st))) = requestCalls (world st).
Proof.
  cbv zeta. rewrite _sendBatch_spec. cbv zeta.
  assert (Hinj : forall k k', after_batch_calls k st = after_batch_calls k' st -> k = k').
  { intros k k' H.
    assert (E : sendBatchCalls (world (after_batch_calls k st))
                = sendBatchCalls (world (after_batch_calls k' st))) by (rewrite H; reflexivity).
    simpl in E. lia. }
  change {| this := this st;
            world := {| files := files (world st); dirs := dirs (world st);
                        fsFault := fsFault (world st);
                        requestCalls := requestCalls (world st);
                        sendBatchCalls := 1 + sendBatchCalls (world st) |} |}
    with (after_batch_calls 1 st).
  change {| this := this st;
            world := {| files := files (world st); dirs := dirs (world st);
                        fsFault := fsFault (world st);
                        requestCalls := requestCalls (world st);
                        sendBatchCalls := 2 + sendBatchCalls (world st) |} |}
    with (after_batch_calls 2 st).
  destruct (sendBatch _ _ _) as [v | err] eqn:Efirst.
  - cbn [snd fst]. split; [| split; [| split; [| split; [| split]]]].
    + auto.
    + intros H. apply Hinj in H. discriminate.
    + intros v' [= <-]. reflexivity.
    + intros err H. discriminate.
    + intros message H. discriminate.
    + reflexivity.
  - destruct (_shouldRetry (this st) isRetryCall err) eqn:Eretry; cbn [snd fst].
    + apply _shouldRetry_true in Eretry as (Hcall & Hurl & message & -> & Hmsg).
      assert (Hcond : retry_conditions (this st) isRetryCall (ErrorInstance message)).
      { split; [exact Hcall |]. split; [exact Hurl |]. exists message. auto. }
      split; [| split; [| split; [| split; [| split]]]].
      * auto.
      * intros _. eauto.
      * intros v H. discriminate.
      * intros err [= <-] [Hno | [m Hm]]; [contradiction | discriminate].
      * intros message' [= <-] _. reflexivity.
      * reflexivity.
    + split; [| split; [| split; [| split; [| split]]]].
      * auto.
      * intros H. apply Hinj in H. discriminate.
      * intros v H. discriminate.
      * intros err' [= <-] _. reflexivity.
      * intros message [= ->] (Hcall & Hurl & message' & [= <-] & Hmsg).
        assert (_shouldRetry (this st) isRetryCall (ErrorInstance message) = true)
          by (apply _shouldRetry_true; eauto).
        congruence.
      * reflexivity.
Qed.

Lemma X1_witness :
  let flaky :=
    Fake.scriptedBatch Fake.fakeInfuraUrl
      (fun n => match n with
                | O => Throw (ErrorInstance "header not found")
                | _ => Normal Fake.accountRaw
                end) in
  let other :=
    Fake.scriptedBatch "other" (fun _ => Throw (ErrorInstance "header not found")) in
  let odd :=
    Fake.scriptedBatch Fake.fakeInfuraUrl
      (fun n => match n with
                | O => Throw (OtherValue (Some "header not found"))
                | _ => Normal Fake.accountRaw
                end) in
  _sendBatch Fake.accountBatch false (Fake.start flaky)
    = (Normal Fake.accountRaw, after_batch_calls 2 (Fake.start flaky)) /\
  _sendBatch Fake.accountBatch false (Fake.start other)
    = (Throw (ErrorInstance "header not found"), after_batch_calls 1 (Fake.start other)) /\
  _sendBatch Fake.accountBatch false (Fake.start odd)
    = (Throw (OtherValue (Some "header not found")), after_batch_calls 1 (Fake.start odd)).
Proof.
  intros flaky other odd.
  destruct (X1_sendBatch_retries_once Fake.accountBatch false (Fake.start flaky))
    as (_ & _ & _ & _ & Hretry & _).
  destruct (X1_sendBatch_retries_once Fake.accountBatch false (Fake.start other))
    as (_ & _ & _ & Hother & _).
  destruct (X1_sendBatch_retries_once Fake.accountBatch false (Fake.start odd))
    as (_ & _ & _ & Hodd & _).
  split; [| split].
  - apply (Hretry "header not found").
    + reflexivity.
    + split; [reflexivity |]. split; [vm_compute; reflexivity |].
      exists "header not found". split; [reflexivity | vm_compute; reflexivity].
  - apply (Hother (ErrorInstance "header not found")).
    + reflexivity.
    + left. intros (_ & Hurl & _). vm_compute in Hurl. discriminate.
  - apply (Hodd (OtherValue (Some "header not found"))).
    + reflexivity.
    + right. eexists. reflexivity.
Defined.

(** ** Failures of the transport *)

(** X2. A failure of the transport that is not retried away is the outcome
    of the request, single or batch, and nothing is cached: the in-memory
    cache and the files are as before the call. *)
Theorem X2_transport_failure_caches_nothing
    (JSON_stringify : list any -> string) (hash : string -> string) (st : State) :
  (forall method params tType getMax st1 err,
     let key := _getCacheKey JSON_stringify hash (this st) method params in
     memory_miss st key -> disk_miss st key ->
     _send method params false st = (Throw err, st1) ->
     _perform JSON_stringify hash method params tType getMax st = (Throw err, st1) /\
     _cache (this st1) = _cache (this st) /\
     files (world st1) = files (world st)) /\
  (forall batch getMax st1 err,
     let key := _getBatchCacheKey JSON_stringify hash (this st) batch in
     memory_miss st key -> disk_miss st key ->
     _sendBatch batch false st = (Throw err, st1) ->
     _performBatch JSON_stringify hash batch getMax st = (Throw err, st1) /\
     _cache (this st1) = _cache (this st) /\
     files (world st1) = files (world st)).
Proof.
  split.
  - intros method params tType getMax st1 err key Hmem Hdisk Hsend.
    rewrite _perform_miss by assumption.
    rewrite (fetch_send_fails _ _ _ tType getMax _ _ _ Hsend).
    destruct (_send_this method params false st) as (Hthis & Hfiles & _).
    rewrite Hsend in Hthis, Hfiles. cbn [snd] in Hthis, Hfiles.
    rewrite Hthis, Hfiles. auto.
  - intros batch getMax st1 err key Hmem Hdisk Hsend.
    rewrite _performBatch_miss by assumption.
    destruct (_sendBatch_frame batch false st) as [k Hk].
    rewrite Hsend in Hk. cbn [snd] in Hk. subst st1.
    unfold batchFromTransport. run. rewrite Hsend. auto.
Qed.

Lemma X2_witness :
  let st := Fake.start Fake.downProvider in
  let ps := storageParams Fake.bufferToHex Fake.numberToRpcQuantity
              Fake.DAI_ADDRESS Fake.DAI_TOTAL_SUPPLY_STORAGE_POSITION 120 in
  (_perform Fake.stringify Fake.hash "eth_getStorageAt" ps Fake.rpcData
     (fun _ => Some 120) st
   = (Throw (ErrorInstance "connect ECONNREFUSED"), after_calls 1 st) /\
   _cache (this (after_calls 1 st)) = _cache (this st) /\
   files (world (after_calls 1 st)) = files (world st)) /\
  (_performBatch Fake.stringify Fake.hash Fake.accountBatch (fun _ => Some 120) st
   = (Throw (ErrorInstance "connect ECONNREFUSED"), after_batch_calls 1 st) /\
   _cache (this (after_batch_calls 1 st)) = _cache (this st) /\
   files (world (after_batch_calls 1 st)) = files (world st)).
Proof.
  intros st ps.
  destruct (X2_transport_failure_caches_nothing Fake.stringify Fake.hash st)
    as [Hsingle Hbatch].
  split.
  - apply (Hsingle "eth_getStorageAt" ps Fake.rpcData (fun _ => Some 120));
      vm_compute; reflexivity.
  - apply (Hbatch Fake.accountBatch (fun _ => Some 120)); vm_compute; reflexivity.
Defined.

(** ** The persistent store *)

Lemma _getRawFromDiskCache_file key st p raw :
  _getDiskCachePathForKey (this st) key = Normal p ->
  files (world st) !! p = Some (JsonFile raw) ->
  _getRawFromDiskCache key st = (Normal raw, st).
Proof.
  intros Hp Hfile. unfold _getRawFromDiskCache. run. rewrite Hp.
  unfold fsExtra_readJSON. rewrite Hfile. reflexivity.
Qed.

Lemma _getFromDiskCache_file key tType st p raw :
  _getDiskCachePathForKey (this st) key = Normal p ->
  files (world st) !! p = Some (JsonFile raw) ->
  is_defined raw = true ->
  _getFromDiskCache key tType st = (decode raw tType, st).
Proof.
  intros Hp Hfile Hraw. unfold _getFromDiskCache. run.
  rewrite (_getRawFromDiskCache_file _ _ _ _ Hp Hfile), Hraw.
  destruct (decode raw tType); reflexivity.
Qed.

Lemma _perform_disk_hit JSON_stringify hash method params tType getMax st p raw d :
  let key := _getCacheKey JSON_stringify hash (this st) method params in
  memory_miss st key ->
  _getDiskCachePathForKey (this st) key = Normal p ->
  files (world st) !! p = Some (JsonFile raw) ->
  is_defined raw = true ->
  decode raw tType = Normal d ->
  is_defined d = true ->
  _perform JSON_stringify hash method params tType getMax st
    = (Normal d, cached key d st).
Proof.
  intros key Hmem Hp Hfile Hraw Hdec Hd.
  rewrite _perform_cases. cbv zeta. fold key.
  unfold memory_miss in Hmem. rewrite Hmem. cbn [is_defined].
  rewrite (_getFromDiskCache_file _ _ _ _ _ Hp Hfile Hraw), Hdec. cbn [fst].
  rewrite Hd. reflexivity.
Qed.

(** X3. A request that is not in memory and whose entry is on disk is
    answered from the disk: the raw payload is decoded, the decoded value
    is put in memory under the key and returned, the transport is not
    called and nothing is written to disk.  The eligibility policy is not
    consulted on this path: the entry enters the in-memory cache whatever
    the block number of the answer and the reorg window of the client. *)
Theorem X3_disk_hit_skips_transport_and_policy
    (JSON_stringify : list any -> string) (hash : string -> string)
    (method : string) (params : list any) (tType : any -> completion any)
    (getMax : any -> option Z) (st : State) (p : string) (raw d : any) :
  let key := _getCacheKey JSON_stringify hash (this st) method params in
  memory_miss st key ->
  _getDiskCachePathForKey (this st) key = Normal p ->
  files (world st) !! p = Some (JsonFile raw) ->
  is_defined raw = true ->
  decode raw tType = Normal d ->
  is_defined d = true ->
  _perform JSON_stringify hash method params tType getMax st
    = (Normal d, cached key d st) /\
  _cache (this (cached key d st)) !! key = Some d /\
  world (cached key d st) = world st.
Proof.
  intros key Hmem Hp Hfile Hraw Hdec Hd.
  split; [apply (_perform_disk_hit _ _ _ _ _ _ _ p raw); assumption |].
  split; [apply lookup_insert_eq | reflexivity].
Qed.

Lemma X3_witness :
  let st := Fake.startOnDisk Fake.downProvider
              {[ Fake.storagePath 121 := JsonFile Fake.response1 ]} in
  let ps := storageParams Fake.bufferToHex Fake.numberToRpcQuantity
              Fake.DAI_ADDRESS Fake.DAI_TOTAL_SUPPLY_STORAGE_POSITION 121 in
  _canBeCached (this st) (Some 121) = Normal false /\
  _perform Fake.stringify Fake.hash "eth_getStorageAt" ps Fake.rpcData
    (fun _ => Some 121) st
  = (Normal Fake.decoded1, cached (Fake.storageKey 121) Fake.decoded1 st) /\
  _cache (this (cached (Fake.storageKey 121) Fake.decoded1 st)) !! Fake.storageKey 121
  = Some Fake.decoded1 /\
  world (cached (Fake.storageKey 121) Fake.decoded1 st) = world st.
Proof.
  intros st ps. split; [reflexivity |].
  apply (X3_disk_hit_skips_transport_and_policy Fake.stringify Fake.hash
           "eth_getStorageAt" ps Fake.rpcData (fun _ => Some 121) st
           (Fake.storagePath 121) Fake.response1 Fake.decoded1);
    vm_compute; reflexivity.
Defined.

(** X4. A persisted entry that does not decode is fatal for the call: the
    error of the decoder is the outcome, the transport is not tried as a
    fallback, and the state is unchanged. *)
Theorem X4_corrupt_entry_is_fatal
    (JSON_stringify : list any -> string) (hash : string -> string)
    (method : string) (params : list any) (tType : any -> completion any)
    (getMax : any -> option Z) (st : State) (p : string) (raw : any) (err : thrown) :
  let key := _getCacheKey JSON_stringify hash (this st) method params in
  memory_miss st key ->
  _getDiskCachePathForKey (this st) key = Normal p ->
  files (world st) !! p = Some (JsonFile raw) ->
  is_defined raw = true ->
  decode raw tType = Throw err ->
  _perform JSON_stringify hash method params tType getMax st = (Throw err, st).
Proof.
  intros key Hmem Hp Hfile Hraw Hdec.
  rewrite _perform_cases. cbv zeta. fold key.
  unfold memory_miss in Hmem. rewrite Hmem. cbn [is_defined].
  rewrite (_getFromDiskCache_file _ _ _ _ _ Hp Hfile Hraw), Hdec. reflexivity.
Qed.

Lemma X4_witness :
  let st := Fake.startOnDisk Fake.fakeProvider
              {[ Fake.storagePath 120 := JsonFile (JsNumber 7) ]} in
  let ps := storageParams Fake.bufferToHex Fake.numberToRpcQuantity
              Fake.DAI_ADDRESS Fake.DAI_TOTAL_SUPPLY_STORAGE_POSITION 120 in
  _perform Fake.stringify Fake.hash "eth_getStorageAt" ps Fake.rpcData
    (fun _ => Some 120) st
  = (Throw (ErrorInstance "Invalid value supplied to DATA"), st).
Proof.
  intros st ps.
  apply (X4_corrupt_entry_is_fatal Fake.stringify Fake.hash
           "eth_getStorageAt" ps Fake.rpcData (fun _ => Some 120) st
           (Fake.storagePath 120) (JsNumber 7));
    vm_compute; reflexivity.
Defined.

(** X5. Round trip through the persistent store.  After a request was
    fetched from the transport, accepted by the policy and written (the
    file system refusing nothing), a new client instance with the same
    network identity and cache path, over the files the first one left,
    answers the same request with the same decoded value from the disk:
    its transport, whichever it is, is not called. *)
Theorem X5_new_instance_reads_what_was_persisted
    (JSON_stringify : list any -> string) (hash : string -> string)
    (method : string) (params : list any) (tType : any -> completion any)
    (getMax getMax' : any -> option Z) (st st1 : State) (raw d : any)
    (forkCachePath : string) (provider' : HttpProvider) (latest' maxReorg' : Z) :
  let key := _getCacheKey JSON_stringify hash (this st) method params in
  let outcome := _perform JSON_stringify hash method params tType getMax st in
  let newClient :=
    {| this := constructor provider' (_networkId (this st)) latest' maxReorg'
                 (Some forkCachePath);
       world := world (snd outcome) |} in
  _forkCachePath (this st) = Some forkCachePath ->
  (forall p, fsFault (world st) p = None) ->
  memory_miss st key -> disk_miss st key ->
  _send method params false st = (Normal raw, st1) ->
  decode raw tType = Normal d ->
  _canBeCached (this st) (getMax d) = Normal true ->
  is_defined raw = true -> is_defined d = true ->
  fst outcome = Normal d /\
  _perform JSON_stringify hash method params tType getMax' newClient
    = (Normal d, cached key d newClient).
Proof.
  intros key outcome newClient Hpath Hfs Hmem Hdisk Hsend Hdec Hyes Hraw Hd.
  destruct (_send_this method params false st) as (Hthis & Hfiles & Hfault & _).
  rewrite Hsend in Hthis, Hfiles, Hfault. cbn [snd] in Hthis, Hfiles, Hfault.
  assert (Hrun : outcome =
            (match fst (_storeInDiskCache key raw (cached key d st1)) with
             | Normal _ => Normal d
             | Throw err => Throw err
             end, snd (_storeInDiskCache key raw (cached key d st1)))).
  { subst outcome. rewrite _perform_miss by assumption.
    apply (fetch_cacheable_disk key _ _ _ getMax _ _ _ Hsend d forkCachePath);
      assumption. }
  assert (Hpath1 : _forkCachePath (this (cached key d st1)) = Some forkCachePath).
  { cbn. rewrite Hthis. exact Hpath. }
  pose proof (_storeInDiskCache_run key raw _ _ Hpath1) as Hstore.
  cbv zeta in Hstore. cbn [cached this world set_cache _networkId] in Hstore.
  rewrite Hfault, !Hfs in Hstore.
  set (p := path_join (path_join forkCachePath
                         ("network-" +:+ pretty (_networkId (this st1))))
              ("request-" +:+ key +:+ ".json")) in *.
  assert (Hfile : files (world (snd outcome)) !! p = Some (JsonFile raw)).
  { rewrite Hrun. cbn [snd]. rewrite Hstore.
    destruct (bool_decide _); cbn; apply lookup_insert_eq. }
  split.
  - rewrite Hrun. cbn [fst]. rewrite Hstore. destruct (bool_decide _); reflexivity.
  - assert (Hkey : _getCacheKey JSON_stringify hash (this newClient) method params = key)
      by reflexivity.
    rewrite <- Hkey.
    apply (_perform_disk_hit _ _ _ _ _ _ _ p raw); try assumption.
    + unfold memory_miss. cbn. rewrite lookup_empty. reflexivity.
    + subst p. rewrite Hthis. reflexivity.
Qed.

Lemma X5_witness :
  let st := Fake.startOnDisk Fake.fakeProvider ∅ in
  let ps := storageParams Fake.bufferToHex Fake.numberToRpcQuantity
              Fake.DAI_ADDRESS Fake.DAI_TOTAL_SUPPLY_STORAGE_POSITION 120 in
  let outcome :=
    _perform Fake.stringify Fake.hash "eth_getStorageAt" ps Fake.rpcData
      (fun _ => Some 120) st in
  let newClient :=
    {| this := constructor Fake.downProvider 1 100 3 (Some Fake.tmpDir);
       world := world (snd outcome) |} in
  fst outcome = Normal Fake.decoded1 /\
  _perform Fake.stringify Fake.hash "eth_getStorageAt" ps Fake.rpcData
    (fun _ => Some 120) newClient
  = (Normal Fake.decoded1, cached (Fake.storageKey 120) Fake.decoded1 newClient).
Proof.
  intros st ps outcome newClient.
  apply (X5_new_instance_reads_what_was_persisted Fake.stringify Fake.hash
           "eth_getStorageAt" ps Fake.rpcData (fun _ => Some 120) (fun _ => Some 120)
           st (after_calls 1 st) Fake.response1 Fake.decoded1 Fake.tmpDir
           Fake.downProvider 100 3);
    vm_compute; reflexivity.
Defined.

(** X6. The cache folder is ensured at most once per client instance.  A
    store sets the folder flag before it asks for the folder, so the flag
    is set after any store, also after one whose [ensureDir] failed.  A
    store that finds the flag unset asks for the folder: when [ensureDir]
    fails the store fails with that error and writes no file, and
    otherwise the folder is there afterwards.  A store after a store is
    [writeJSON] and nothing else: its outcome is that of the write alone,
    whatever [ensureDir] would answer, and the folders are as they
    were. *)
Theorem X6_folder_is_ensured_at_most_once
    (key : string) (raw : any) (st : State) (forkCachePath : string) :
  let st' := snd (_storeInDiskCache key raw st) in
  let d := path_join forkCachePath ("network-" +:+ pretty (_networkId (this st))) in
  _forkCachePath (this st) = Some forkCachePath ->
  _scopedForkCacheFolderCreated (this st') = Some true /\
  (forall key' raw',
     let p' := path_join d ("request-" +:+ key' +:+ ".json") in
     _storeInDiskCache key' raw' st' =
       match fsFault (world st') p' with
       | Some err => (Throw err, st')
       | None =>
           (Normal tt, {| this := this st'; world := write_file p' raw' (world st') |})
       end) /\
  (_scopedForkCacheFolderCreated (this st) <> Some true ->
   match fsFault (world st) d with
   | Some err =>
       fst (_storeInDiskCache key raw st) = Throw err /\
       files (world st') = files (world st) /\
       dirs (world st') = dirs (world st)
   | None => dirs (world st') = {[d]} ∪ dirs (world st)
   end).
Proof.
  intros st' d Hpath. subst st' d.
  pose proof (_storeInDiskCache_run key raw st forkCachePath Hpath) as Hrun.
  cbv zeta in Hrun.
  assert (Hflag : _scopedForkCacheFolderCreated
                    (this (snd (_storeInDiskCache key raw st))) = Some true /\
                  _forkCachePath (this (snd (_storeInDiskCache key raw st)))
                  = Some forkCachePath /\
                  _networkId (this (snd (_storeInDiskCache key raw st)))
                  = _networkId (this st)).
  { rewrite Hrun. case_bool_decide as Hf.
    - destruct (fsFault (world st) _); cbn; auto.
    - destruct (fsFault (world st) (path_join forkCachePath _)); cbn; [auto |].
      destruct (fsFault (world st) _); cbn; auto. }
  destruct Hflag as (Hflag & Hpath' & Hnet).
  split; [exact Hflag |]. split.
  - intros key' raw'.
    rewrite (_storeInDiskCache_run key' raw' _ forkCachePath Hpath'). cbv zeta.
    rewrite Hflag, Hnet. rewrite bool_decide_eq_true_2 by reflexivity. reflexivity.
  - intros Hno. rewrite Hrun.
    rewrite bool_decide_eq_false_2 by exact Hno.
    destruct (fsFault (world st) (path_join forkCachePath _)) as [err |]; cbn; [auto |].
    match goal with
    | |- context [match fsFault ?w ?q with _ => _ end] => destruct (fsFault w q)
    end; reflexivity.
Qed.

Lemma X6_witness :
  let readOnly :=
    {| files := ∅; dirs := ∅;
       fsFault := fun _ => Some (ErrorInstance "EROFS");
       requestCalls := 0; sendBatchCalls := 0 |} in
  let st := {| this := constructor Fake.fakeProvider 1 123 3 (Some Fake.tmpDir);
               world := readOnly |} in
  let st' := snd (_storeInDiskCache (Fake.storageKey 120) Fake.response1 st) in
  let folder := path_join Fake.tmpDir "network-1" in
  let fresh := Fake.startOnDisk Fake.fakeProvider ∅ in
  let fresh' := snd (_storeInDiskCache (Fake.storageKey 120) Fake.response1 fresh) in
  (_scopedForkCacheFolderCreated (this st') = Some true /\
   fst (_storeInDiskCache (Fake.storageKey 120) Fake.response1 st)
   = Throw (ErrorInstance "EROFS") /\
   files (world st') = files (world st) /\
   dirs (world st') = dirs (world st)) /\
  (dirs (world fresh') = {[folder]} ∪ dirs (world fresh) /\
   _storeInDiskCache (Fake.storageKey 110) Fake.response1 fresh'
   = (Normal tt,
      {| this := this fresh';
         world := write_file (Fake.storagePath 110) Fake.response1 (world fresh') |})).
Proof.
  intros readOnly st st' folder fresh fresh'.
  destruct (X6_folder_is_ensured_at_most_once (Fake.storageKey 120) Fake.response1 st
              Fake.tmpDir eq_refl) as (Hflag & _ & Hfail).
  destruct (X6_folder_is_ensured_at_most_once (Fake.storageKey 120) Fake.response1 fresh
              Fake.tmpDir eq_refl) as (_ & Hlater & Hfirst).
  split; [split; [exact Hflag |] | split].
  - apply Hfail. discriminate.
  - apply Hfirst. discriminate.
  - apply (Hlater (Fake.storageKey 110) Fake.response1).
Defined.

(** X7. When the write of the persistent entry fails, the call fails, but
    the decoded value is already in the in-memory cache: no file has
    changed, and the same request made again returns the value from
    memory, without a transport call and whatever the codec. *)
Theorem X7_failed_write_keeps_the_memory_entry
    (JSON_stringify : list any -> string) (hash : string -> string)
    (method : string) (params : list any) (tType : any -> completion any)
    (getMax : any -> option Z) (st st1 : State) (raw d : any)
    (p : string) (err : thrown) :
  let key := _getCacheKey JSON_stringify hash (this st) method params in
  let outcome := _perform JSON_stringify hash method params tType getMax st in
  memory_miss st key -> disk_miss st key ->
  _send method params false st = (Normal raw, st1) ->
  decode raw tType = Normal d ->
  _canBeCached (this st) (getMax d) = Normal true ->
  _getDiskCachePathForKey (this st) key = Normal p ->
  fsFault (world st) p = Some err ->
  (exists err', fst outcome = Throw err') /\
  _cache (this (snd outcome)) !! key = Some d /\
  files (world (snd outcome)) = files (world st) /\
  (is_defined d = true ->
   forall tType' getMax',
     _perform JSON_stringify hash method params tType' getMax' (snd outcome)
     = (Normal d, snd outcome)).
Proof.
  intros key outcome Hmem Hdisk Hsend Hdec Hyes Hp Hfault.
  destruct (_send_this method params false st) as (Hthis & Hfiles & Hfs & _).
  rewrite Hsend in Hthis, Hfiles, Hfs. cbn [snd] in Hthis, Hfiles, Hfs.
  unfold _getDiskCachePathForKey in Hp.
  destruct (_forkCachePath (this st)) as [forkCachePath |] eqn:Hpath; [| discriminate].
  injection Hp as Hp.
  assert (Hrun : outcome =
            (match fst (_storeInDiskCache key raw (cached key d st1)) with
             | Normal _ => Normal d
             | Throw e => Throw e
             end, snd (_storeInDiskCache key raw (cached key d st1)))).
  { subst outcome. rewrite _perform_miss by assumption.
    apply (fetch_cacheable_disk key _ _ _ getMax _ _ _ Hsend d forkCachePath);
      assumption. }
  assert (Hpath1 : _forkCachePath (this (cached key d st1)) = Some forkCachePath).
  { cbn. rewrite Hthis. exact Hpath. }
  pose proof (_storeInDiskCache_run key raw _ _ Hpath1) as Hstore.
  cbv zeta in Hstore. cbn [cached this world set_cache _networkId] in Hstore.
  rewrite Hfs, Hthis, Hp, Hfault in Hstore.
  assert (Hall : (exists err', fst outcome = Throw err') /\
                 _cache (this (snd outcome)) !! key = Some d /\
                 files (world (snd outcome)) = files (world st) /\
                 _networkId (this (snd outcome)) = _networkId (this st)).
  { rewrite Hrun. cbn [fst snd]. rewrite Hstore.
    destruct (bool_decide _).
    - cbn. rewrite Hfiles, Hthis.
      split; [eauto |]. split; [apply lookup_insert_eq |]. auto.
    - match goal with
      | |- context [match fsFault ?w ?q with _ => _ end] => destruct (fsFault w q)
      end; cbn; rewrite ?Hfiles, ?Hthis;
        (split; [eauto |]); (split; [apply lookup_insert_eq |]); auto. }
  destruct Hall as (Hfail & Hmemory & Hsame & Hnet).
  split; [exact Hfail |]. split; [exact Hmemory |]. split; [exact Hsame |].
  intros Hd tType' getMax'. apply _perform_hit; [| exact Hd].
  rewrite (_getCacheKey_same_network _ _ _ _ _ _ Hnet). exact Hmemory.
Qed.

Lemma X7_witness :
  let readOnly :=
    {| files := ∅; dirs := ∅;
       fsFault := fun _ => Some (ErrorInstance "EROFS");
       requestCalls := 0; sendBatchCalls := 0 |} in
  let st := {| this := constructor Fake.fakeProvider 1 123 3 (Some Fake.tmpDir);
               world := readOnly |} in
  let ps := storageParams Fake.bufferToHex Fake.numberToRpcQuantity
              Fake.DAI_ADDRESS Fake.DAI_TOTAL_SUPPLY_STORAGE_POSITION 120 in
  let outcome :=
    _perform Fake.stringify Fake.hash "eth_getStorageAt" ps Fake.rpcData
      (fun _ => Some 120) st in
  fst outcome = Throw (ErrorInstance "EROFS") /\
  _cache (this (snd outcome)) !! Fake.storageKey 120 = Some Fake.decoded1 /\
  _perform Fake.stringify Fake.hash "eth_getStorageAt" ps Fake.rpcData
    (fun _ => Some 120) (snd outcome) = (Normal Fake.decoded1, snd outcome).
Proof.
  intros readOnly st ps outcome.
  destruct (X7_failed_write_keeps_the_memory_entry Fake.stringify Fake.hash
              "eth_getStorageAt" ps Fake.rpcData (fun _ => Some 120) st
              (after_calls 1 st) Fake.response1 Fake.decoded1
              (Fake.storagePath 120) (ErrorInstance "EROFS"))
    as (_ & Hmemory & _ & Hagain); try (vm_compute; reflexivity).
  split; [vm_compute; reflexivity |]. split; [exact Hmemory |].
  apply Hagain. reflexivity.
Defined.

(** ** What a request leaves alone *)

(** The last steps of a request: the policy, then the two stores. *)
Lemma admit_frame (b : bool) key decoded raw st1 :
  let st' :=
    snd (when b (_storeInCache key decoded ;;
                 when (_isCacheToDiskEnabled (this st1))
                   (_storeInDiskCache key raw)) st1) in
  same_config (this st1) (this st') /\
  (forall k, k <> key -> _cache (this st') !! k = _cache (this st1) !! k) /\
  requestCalls (world st') = requestCalls (world st1) /\
  sendBatchCalls (world st') = sendBatchCalls (world st1) /\
  (_forkCachePath (this st1) = None ->
   files (world st') = files (world st1) /\ dirs (world st') = dirs (world st1)) /\
  (forall p q, _getDiskCachePathForKey (this st1) key = Normal p -> q <> p ->
     files (world st') !! q = files (world st1) !! q).
Proof.
  intros st'. subst st'. destruct b; run.
  2: { repeat split; auto. }
  unfold _isCacheToDiskEnabled.
  destruct (_forkCachePath (this st1)) as [forkCachePath |] eqn:Hpath.
  2: { cbn. repeat split; auto. intros k Hk. apply lookup_insert_ne. congruence. }
  change {| this := set_cache <[key:=decoded]> (this st1); world := world st1 |}
    with (cached key decoded st1).
  assert (Hpath1 : _forkCachePath (this (cached key decoded st1)) = Some forkCachePath)
    by exact Hpath.
  rewrite (_storeInDiskCache_run key raw _ _ Hpath1). cbv zeta.
  cbn [cached this world set_cache _networkId _scopedForkCacheFolderCreated].
  assert (Hother : forall k, k <> key ->
            <[key:=decoded]> (_cache (this st1)) !! k = _cache (this st1) !! k).
  { intros k Hk. apply lookup_insert_ne. congruence. }
  assert (Hfile : forall p q,
            _getDiskCachePathForKey (this st1) key = Normal p -> q <> p ->
            <[path_join (path_join forkCachePath
                           ("network-" +:+ pretty (_networkId (this st1))))
                ("request-" +:+ key +:+ ".json") := JsonFile raw]> (files (world st1)) !! q
            = files (world st1) !! q).
  { intros p q Hp Hq. unfold _getDiskCachePathForKey in Hp. rewrite Hpath in Hp.
    injection Hp as <-. apply lookup_insert_ne. congruence. }
  destruct (bool_decide _).
  - destruct (fsFault (world st1) _); cbn;
      (split; [repeat split |]); (split; [exact Hother |]);
      repeat split; auto; try discriminate.
  - destruct (fsFault (world st1) (path_join forkCachePath _)); cbn.
    + (split; [repeat split |]); (split; [exact Hother |]);
        repeat split; auto; try discriminate.
    + destruct (fsFault (world st1) _); cbn;
        (split; [repeat split |]); (split; [exact Hother |]);
        repeat split; auto; try discriminate.
Qed.

Lemma touches_only_refl key st : touches_only key st st.
Proof. repeat split; auto. Qed.

Lemma touches_only_cached key v st : touches_only key st (cached key v st).
Proof.
  repeat split; auto. intros k Hk. cbn. apply lookup_insert_ne. congruence.
Qed.

(** The same, after calls that only moved the counters of the transport. *)
Lemma touches_only_after key st st1 st' :
  this st1 = this st -> files (world st1) = files (world st) ->
  dirs (world st1) = dirs (world st) ->
  touches_only key st1 st' -> touches_only key st st'.
Proof.
  unfold touches_only. intros Hthis Hfiles Hdirs. rewrite Hthis, Hfiles, Hdirs. auto.
Qed.

Lemma admit_touches_only (b : bool) key decoded raw st1 :
  touches_only key st1
    (snd (when b (_storeInCache key decoded ;;
                  when (_isCacheToDiskEnabled (this st1))
                    (_storeInDiskCache key raw)) st1)).
Proof.
  destruct (admit_frame b key decoded raw st1) as (H1 & H2 & _ & _ & H3 & H4).
  repeat split; try apply H1; try apply H3; auto.
Qed.

Lemma fetch_touches_only key method params tType getMax st :
  touches_only key st (snd (fetchFromTransport key method params tType getMax st)) /\
  sendBatchCalls (world (snd (fetchFromTransport key method params tType getMax st)))
  = sendBatchCalls (world st).
Proof.
  unfold fetchFromTransport. run.
  destruct (_send_frame method params false st) as (n & _ & Hn).
  assert (Hmoved : touches_only key st (after_calls n st))
    by (eapply touches_only_after; [| | | apply touches_only_refl]; reflexivity).
  destruct (_send method params false st) as [[raw | err] st1]; cbn [snd] in Hn; subst st1.
  2: { cbn [snd]. split; [exact Hmoved | reflexivity]. }
  destruct (decode raw tType) as [d | err].
  2: { cbn [snd]. split; [exact Hmoved | reflexivity]. }
  destruct (_canBeCached (this st) (getMax d)) as [b | err].
  2: { cbn [snd]. split; [exact Hmoved | reflexivity]. }
  pose proof (admit_touches_only b key d raw (after_calls n st)) as Hframe.
  destruct (admit_frame b key d raw (after_calls n st)) as (_ & _ & _ & Hbatch & _).
  pose proof (conj Hframe Hbatch) as Hboth. clear Hframe Hbatch.
  match goal with
  | |- context [let (c, st') := ?m in _] =>
      assert (Hm : touches_only key (after_calls n st) (snd m) /\
                   sendBatchCalls (world (snd m))
                   = sendBatchCalls (world (after_calls n st))) by exact Hboth;
      clear Hboth; destruct m as [[[] | err] st2]
  end; cbn [snd] in *; destruct Hm as [Hframe Hbatch];
    (split; [eapply touches_only_after; [| | | exact Hframe]; reflexivity
            | exact Hbatch]).
Qed.

Lemma batch_touches_only key batch getMax st :
  touches_only key st (snd (batchFromTransport key batch getMax st)) /\
  requestCalls (world (snd (batchFromTransport key batch getMax st)))
  = requestCalls (world st).
Proof.
  unfold batchFromTransport. run.
  destruct (_sendBatch_frame batch false st) as (n & Hn).
  assert (Hmoved : touches_only key st (after_batch_calls n st))
    by (eapply touches_only_after; [| | | apply touches_only_refl]; reflexivity).
  destruct (_sendBatch batch false st) as [[raws | err] st1]; cbn [snd] in Hn; subst st1.
  2: { cbn [snd]. split; [exact Hmoved | reflexivity]. }
  destruct (map_decode raws (map tType batch)) as [ds | err].
  2: { cbn [snd]. split; [exact Hmoved | reflexivity]. }
  destruct (_canBeCached (this st) (getMax ds)) as [b | err].
  2: { cbn [snd]. split; [exact Hmoved | reflexivity]. }
  pose proof (admit_touches_only b key (JsArray ds) (JsArray raws)
                (after_batch_calls n st)) as Hframe.
  destruct (admit_frame b key (JsArray ds) (JsArray raws) (after_batch_calls n st))
    as (_ & _ & Hsingle & _).
  pose proof (conj Hframe Hsingle) as Hboth. clear Hframe Hsingle.
  match goal with
  | |- context [let (c, st') := ?m in _] =>
      assert (Hm : touches_only key (after_batch_calls n st) (snd m) /\
                   requestCalls (world (snd m))
                   = requestCalls (world (after_batch_calls n st))) by exact Hboth;
      clear Hboth; destruct m as [[[] | err] st2]
  end; cbn [snd] in *; destruct Hm as [Hframe Hsingle];
    (split; [eapply touches_only_after; [| | | exact Hframe]; reflexivity
            | exact Hsingle]).
Qed.

Lemma _getBatchFromDiskCache_state key tTypes st :
  snd (_getBatchFromDiskCache key tTypes st) = st.
Proof.
  unfold _getBatchFromDiskCache. run.
  destruct (_getRawFromDiskCache_total key st) as [v ->].
  destruct v; try reflexivity.
  destruct (map_decode items tTypes); reflexivity.
Qed.

(** The three ways of [_performBatch]. *)
Lemma _performBatch_cases JSON_stringify hash batch getMax st :
  let key := _getBatchCacheKey JSON_stringify hash (this st) batch in
  _performBatch JSON_stringify hash batch getMax st =
    if is_defined (default JsUndefined (_cache (this st) !! key))
    then (Normal (default JsUndefined (_cache (this st) !! key)), st)
    else match fst (_getBatchFromDiskCache key (map tType batch) st) with
         | Normal diskCachedResult =>
             if is_defined diskCachedResult
             then (Normal diskCachedResult, cached key diskCachedResult st)
             else batchFromTransport key batch getMax st
         | Throw err => (Throw err, st)
         end.
Proof.
  intros key. unfold _performBatch, batchFromTransport. run. fold key.
  destruct (is_defined (default JsUndefined (_cache (this st) !! key))); [reflexivity |].
  pose proof (_getBatchFromDiskCache_state key (map tType batch) st) as Hst.
  destruct (_getBatchFromDiskCache key (map tType batch) st) as [[v | err] st'];
    cbn [fst snd] in *; subst st'; [| reflexivity].
  destruct (is_defined v); reflexivity.
Qed.

Lemma _perform_frame JSON_stringify hash method params tType getMax st :
  let st' := snd (_perform JSON_stringify hash method params tType getMax st) in
  touches_only (_getCacheKey JSON_stringify hash (this st) method params) st st' /\
  sendBatchCalls (world st') = sendBatchCalls (world st).
Proof.
  intros st'. subst st'.
  rewrite _perform_cases. cbv zeta.
  set (key := _getCacheKey JSON_stringify hash (this st) method params).
  destruct (is_defined (default JsUndefined (_cache (this st) !! key))) eqn:Hmem.
  { cbn [snd]. split; [apply touches_only_refl | auto]. }
  destruct (fst (_getFromDiskCache key tType st)) as [v | err].
  2: { cbn [snd]. split; [apply touches_only_refl | auto]. }
  destruct (is_defined v).
  + cbn [snd]. split; [apply touches_only_cached | reflexivity].
  + apply fetch_touches_only.
Qed.

Lemma _performBatch_frame JSON_stringify hash batch getMax st :
  let st' := snd (_performBatch JSON_stringify hash batch getMax st) in
  touches_only (_getBatchCacheKey JSON_stringify hash (this st) batch) st st' /\
  requestCalls (world st') = requestCalls (world st).
Proof.
  intros st'. subst st'.
  rewrite _performBatch_cases. cbv zeta.
  set (key := _getBatchCacheKey JSON_stringify hash (this st) batch).
  destruct (is_defined (default JsUndefined (_cache (this st) !! key))) eqn:Hmem.
  { cbn [snd]. split; [apply touches_only_refl | auto]. }
  destruct (fst (_getBatchFromDiskCache key (map tType batch) st)) as [v | err].
  2: { cbn [snd]. split; [apply touches_only_refl | auto]. }
  destruct (is_defined v).
  + cbn [snd]. split; [apply touches_only_cached | reflexivity].
  + apply batch_touches_only.
Qed.

(** X8. A request, single or batch, writes under its own key only.  From
    the start of the call to its end, with no other call in between, every
    entry of the in-memory cache under another key and every file at
    another path are as they were, the construction parameters are the
    same, and a single request makes no batch call, a batch no single
    call. *)
Theorem X8_a_request_touches_its_own_entry_only
    (JSON_stringify : list any -> string) (hash : string -> string) (st : State) :
  (forall method params tType getMax,
     let st' := snd (_perform JSON_stringify hash method params tType getMax st) in
     touches_only (_getCacheKey JSON_stringify hash (this st) method params) st st' /\
     sendBatchCalls (world st') = sendBatchCalls (world st)) /\
  (forall batch getMax,
     let st' := snd (_performBatch JSON_stringify hash batch getMax st) in
     touches_only (_getBatchCacheKey JSON_stringify hash (this st) batch) st st' /\
     requestCalls (world st') = requestCalls (world st)).
Proof.
  split.
  - intros method params tType getMax. apply _perform_frame.
  - intros batch getMax. apply _performBatch_frame.
Qed.

(** X9. A client constructed without a cache path never touches the file
    system: whatever the request, single or batch, and whatever its
    outcome, the files and the folders are as before. *)
Theorem X9_without_cache_path_no_file_is_touched
    (JSON_stringify : list any -> string) (hash : string -> string) (st : State) :
  _forkCachePath (this st) = None ->
  (forall method params tType getMax,
     let st' := snd (_perform JSON_stringify hash method params tType getMax st) in
     files (world st') = files (world st) /\ dirs (world st') = dirs (world st) /\
     _forkCachePath (this st') = None) /\
  (forall batch getMax,
     let st' := snd (_performBatch JSON_stringify hash batch getMax st) in
     files (world st') = files (world st) /\ dirs (world st') = dirs (world st) /\
     _forkCachePath (this st') = None).
Proof.
  intros Hnone. split.
  - intros method params tType getMax st'.
    destruct (_perform_frame JSON_stringify hash method params tType getMax st)
      as [(Hconf & _ & Hfs & _) _].
    destruct (Hfs Hnone) as [Hfiles Hdirs].
    destruct Hconf as (_ & _ & _ & _ & Hpath).
    subst st'. rewrite Hpath. auto.
  - intros batch getMax st'.
    destruct (_performBatch_frame JSON_stringify hash batch getMax st)
      as [(Hconf & _ & Hfs & _) _].
    destruct (Hfs Hnone) as [Hfiles Hdirs].
    destruct Hconf as (_ & _ & _ & _ & Hpath).
    subst st'. rewrite Hpath. auto.
Qed.

Lemma X9_witness :
  let st := Fake.start Fake.fakeProvider in
  let st' := snd (Fake.getStorageAt 120 st) in
  _cache (this st') !! Fake.storageKey 120 = Some Fake.decoded1 /\
  files (world st') = files (world st) /\ dirs (world st') = dirs (world st) /\
  _forkCachePath (this st') = None.
Proof.
  intros st st'. split; [vm_compute; reflexivity |].
  destruct (X9_without_cache_path_no_file_is_touched Fake.stringify Fake.hash st eq_refl)
    as [Hsingle _].
  apply (Hsingle "eth_getStorageAt"
           (storageParams Fake.bufferToHex Fake.numberToRpcQuantity
              Fake.DAI_ADDRESS Fake.DAI_TOTAL_SUPPLY_STORAGE_POSITION 120)
           Fake.rpcData (fun _ => Some 120)).
Defined.

(** ** More of the public operations *)

Section MoreOperations.

Variable JSON_stringify : list any -> string.
Variable hash : string -> string.
Variable bufferToHex : list Z -> string.
Variable numberToRpcQuantity : Z -> string.
Variables rpcData rpcQuantity rpcLogArray : any -> completion any.
Variables rpcBlock rpcBlockWithTransactions : any -> completion any.

(** X10. A log query is cached by the upper bound of its range alone.
    With [toBlock] above [latestBlockNumberOnCreation - maxReorg] the
    query is never cached, however old [fromBlock] is: it leaves the
    client and the files as they were and reaches the transport.  With
    [toBlock] at or below it, a successful query is in memory afterwards
    and the same query again is answered from there. *)
Theorem X10_logs_are_cached_by_their_upper_bound (options : LogsOptions) (st : State) :
  let call := getLogs JSON_stringify hash bufferToHex numberToRpcQuantity rpcLogArray
                options in
  let key := _getCacheKey JSON_stringify hash (this st) "eth_getLogs"
               (logsParams bufferToHex numberToRpcQuantity options) in
  let threshold := _latestBlockNumberOnCreation (this st) - _maxReorg (this st) in
  (toBlock options > threshold ->
   memory_miss st key -> disk_miss st key ->
   this (snd (call st)) = this st /\
   files (world (snd (call st))) = files (world st) /\
   (requestCalls (world st) < requestCalls (world (snd (call st))))%nat) /\
  (toBlock options <= threshold ->
   forall d st1,
     call st = (Normal d, st1) -> is_defined d = true ->
     _cache (this st1) !! key = Some d /\
     call st1 = (Normal d, st1)).
Proof.
  intros call key threshold. subst call threshold. unfold getLogs. split.
  - intros Habove Hmem Hdisk.
    apply _perform_uncacheable_step; try assumption.
    intros d. apply _canBeCached_above. exact Habove.
  - intros Hbelow d st1 Hrun Hd.
    assert (Hyes : forall v : any,
              _canBeCached (this st) ((fun _ => Some (toBlock options)) v) <> Normal false).
    { intros v. apply _canBeCached_below. exact Hbelow. }
    destruct (_perform_success_cached _ _ _ _ _ _ _ _ _ Hyes Hrun Hd)
      as (Hcached & _ & Hnet & _).
    split; [exact Hcached |].
    apply _perform_hit; [| exact Hd].
    rewrite (_getCacheKey_same_network _ _ _ _ _ _ Hnet). exact Hcached.
Qed.

Lemma getBlockByNumber_perform blockNumber includeTransactions :
  getBlockByNumber JSON_stringify hash numberToRpcQuantity rpcBlock
    rpcBlockWithTransactions blockNumber includeTransactions
  = _perform JSON_stringify hash "eth_getBlockByNumber"
      [JsString (numberToRpcQuantity blockNumber); JsBool includeTransactions]
      (nullable (if includeTransactions then rpcBlockWithTransactions else rpcBlock))
      (fun block => optional_BN_field "number" block).
Proof. destruct includeTransactions; reflexivity. Qed.

(** X11. Whether a block fetched by number is cached is decided by the
    number the decoded block carries, not by the number that was asked
    for: on the transport path of a client without cache path, the block
    enters the in-memory cache exactly when its [number] field is a
    number at most [latestBlockNumberOnCreation - maxReorg]; a [null]
    block and a block whose number is [null] are returned and not
    cached; and on a block whose number has more than 53 bits the call
    fails with the error of [BN.toNumber], nothing being cached. *)
Theorem X11_a_block_is_cached_by_the_number_it_carries
    (blockNumber : Z) (includeTransactions : bool) (st st1 : State) (raw block : any) :
  let ps := [JsString (numberToRpcQuantity blockNumber); JsBool includeTransactions] in
  let key := _getCacheKey JSON_stringify hash (this st) "eth_getBlockByNumber" ps in
  let codec := nullable (if includeTransactions then rpcBlockWithTransactions
                         else rpcBlock) in
  let threshold := _latestBlockNumberOnCreation (this st) - _maxReorg (this st) in
  memory_miss st key -> disk_miss st key ->
  _send "eth_getBlockByNumber" ps false st = (Normal raw, st1) ->
  decode raw codec = Normal block ->
  _forkCachePath (this st) = None ->
  getBlockByNumber JSON_stringify hash numberToRpcQuantity rpcBlock
    rpcBlockWithTransactions blockNumber includeTransactions st
  = match optional_BN_field "number" block with
    | Some n =>
        if Z.abs n <? 2 ^ 53
        then (Normal block, if n <=? threshold then cached key block st1 else st1)
        else (Throw (ErrorInstance "Number can only safely store up to 53 bits"), st1)
    | None => (Normal block, st1)
    end.
Proof.
  intros ps key codec threshold Hmem Hdisk Hsend Hdec Hnone.
  rewrite getBlockByNumber_perform. fold ps codec.
  rewrite _perform_miss by assumption. fold key.
  destruct (optional_BN_field "number" block) as [n |] eqn:Hnumber.
  - pose proof (_canBeCached_Some (this st) n) as Hcan. fold threshold in Hcan.
    destruct (Z.abs n <? 2 ^ 53).
    + destruct (n <=? threshold) eqn:Hle.
      * apply (fetch_cacheable_memory_only key _ _ _ _ _ _ _ Hsend block Hdec);
          [| exact Hnone].
        rewrite Hnumber. exact Hcan.
      * apply (fetch_not_cacheable key _ _ _ _ _ _ _ Hsend block Hdec).
        rewrite Hnumber. exact Hcan.
    + apply (fetch_policy_throws key _ _ _ _ _ _ _ Hsend block _ Hdec).
      rewrite Hnumber. exact Hcan.
  - apply (fetch_not_cacheable key _ _ _ _ _ _ _ Hsend block Hdec).
    rewrite Hnumber. reflexivity.
Qed.

(** X12. [getAccountData] sends one batch of three calls and reads its
    three results by position; it does not check how many results came
    back, a missing position being [undefined].  When the policy accepts
    the queried block the decoded results are cached as one array, and
    the same call again is answered from memory: neither [sendBatch] nor
    [request] is called.  The queried block number is one that
    [BN.toNumber] can give. *)
Theorem X12_account_data_by_position_and_cached_whole
    (address : list Z) (blockNumber : Z) (st st1 : State) (raws ds : list any) :
  let batch := accountDataBatch bufferToHex numberToRpcQuantity rpcData rpcQuantity
                 address blockNumber in
  let key := _getBatchCacheKey JSON_stringify hash (this st) batch in
  let call := getAccountData JSON_stringify hash bufferToHex numberToRpcQuantity
                rpcData rpcQuantity address blockNumber in
  let result := JsObject [("code", nth 0 ds JsUndefined);
                          ("transactionCount", nth 1 ds JsUndefined);
                          ("balance", nth 2 ds JsUndefined)] in
  memory_miss st key -> disk_miss st key ->
  _sendBatch batch false st = (Normal raws, st1) ->
  map_decode raws [rpcData; rpcQuantity; rpcQuantity] = Normal ds ->
  blockNumber <= _latestBlockNumberOnCreation (this st) - _maxReorg (this st) ->
  Z.abs blockNumber < 2 ^ 53 ->
  _forkCachePath (this st) = None ->
  call st = (Normal result, cached key (JsArray ds) st1) /\
  call (cached key (JsArray ds) st1) = (Normal result, cached key (JsArray ds) st1).
Proof.
  intros batch key call result Hmem Hdisk Hsend Hdec Hle Hfits Hnone.
  assert (Hyes : _canBeCached (this st) ((fun _ => Some blockNumber) ds) = Normal true).
  { rewrite _canBeCached_Some.
    apply Z.ltb_lt in Hfits. rewrite Hfits. apply Z.leb_le in Hle. rewrite Hle.
    reflexivity. }
  destruct (batch_sent_this _ _ _ _ Hsend) as [Hthis _].
  subst call. unfold getAccountData. fold batch. split.
  - unfold bind at 1. rewrite _performBatch_miss by assumption. fold key.
    rewrite (batch_cacheable_memory_only key batch (fun _ => Some blockNumber)
               _ _ _ Hsend ds Hdec Hyes Hnone).
    reflexivity.
  - assert (Hk : _getBatchCacheKey JSON_stringify hash
                   (this (cached key (JsArray ds) st1)) batch = key).
    { subst key. rewrite !_getBatchCacheKey_spec.
      apply _getCacheKey_same_network. cbn. rewrite Hthis. reflexivity. }
    unfold bind at 1.
    rewrite (_performBatch_hit _ _ _ _ _ (JsArray ds)); [reflexivity | | reflexivity].
    rewrite Hk. apply lookup_insert_eq.
Qed.

End MoreOperations.

Lemma X10_witness :
  let st := Fake.start Fake.logsProvider in
  (121 > _latestBlockNumberOnCreation (this st) - _maxReorg (this st) /\
   this (snd (Fake.getLogs 1 121 st)) = this st /\
   files (world (snd (Fake.getLogs 1 121 st))) = files (world st) /\
   (requestCalls (world st) < requestCalls (world (snd (Fake.getLogs 1 121 st))))%nat) /\
  (120 <= _latestBlockNumberOnCreation (this st) - _maxReorg (this st) /\
   Fake.getLogs 100 120 (snd (Fake.getLogs 100 120 st))
   = (Normal (JsArray []), snd (Fake.getLogs 100 120 st))).
Proof.
  intros st. split.
  - split; [reflexivity |].
    destruct (X10_logs_are_cached_by_their_upper_bound Fake.stringify Fake.hash
                Fake.bufferToHex Fake.numberToRpcQuantity Fake.rpcLogArray
                (Fake.logsOptions 1 121) st) as [Hnever _].
    apply Hnever; vm_compute; reflexivity.
  - split; [vm_compute; discriminate |].
    destruct (X10_logs_are_cached_by_their_upper_bound Fake.stringify Fake.hash
                Fake.bufferToHex Fake.numberToRpcQuantity Fake.rpcLogArray
                (Fake.logsOptions 100 120) st) as [_ Hcached].
    apply (Hcached ltac:(vm_compute; discriminate) (JsArray [])
             (snd (Fake.getLogs 100 120 st))); vm_compute; reflexivity.
Defined.

Lemma X11_witness :
  let st := Fake.start Fake.blockProvider in
  let huge := JsObject [("number", JsBN (2 ^ 53))] in
  let st2 := Fake.start (Fake.scripted "fake" (fun _ => Normal huge)) in
  optional_BN_field "number" Fake.block500 = Some 500 /\
  Fake.getBlockByNumber 5 st = (Normal Fake.block500, after_calls 1 st) /\
  Fake.getBlockByNumber 5 st2
  = (Throw (ErrorInstance "Number can only safely store up to 53 bits"),
     after_calls 1 st2).
Proof.
  intros st huge st2. split; [reflexivity |]. split.
  - apply (X11_a_block_is_cached_by_the_number_it_carries Fake.stringify Fake.hash
             Fake.numberToRpcQuantity Fake.rpcEntity Fake.rpcEntity 5 false st
             (after_calls 1 st) Fake.block500 Fake.block500);
      vm_compute; reflexivity.
  - apply (X11_a_block_is_cached_by_the_number_it_carries Fake.stringify Fake.hash
             Fake.numberToRpcQuantity Fake.rpcEntity Fake.rpcEntity 5 false st2
             (after_calls 1 st2) huge huge);
      vm_compute; reflexivity.
Defined.

Lemma X12_witness :
  let st := Fake.start Fake.batchProvider in
  let code := JsBuffer [48; 120; 54; 48; 56; 48] in
  let count := JsBuffer [48; 120; 49] in
  let balance := JsBuffer [48; 120; 48] in
  let key := _getBatchCacheKey Fake.stringify Fake.hash (this st) Fake.accountBatch in
  let st2 := cached key (JsArray [code; count; balance]) (after_batch_calls 1 st) in
  let result := JsObject [("code", code); ("transactionCount", count);
                          ("balance", balance)] in
  Fake.getAccountData st = (Normal result, st2) /\
  Fake.getAccountData st2 = (Normal result, st2).
Proof.
  intros st code count balance key st2 result.
  apply (X12_account_data_by_position_and_cached_whole Fake.stringify Fake.hash
           Fake.bufferToHex Fake.numberToRpcQuantity Fake.rpcData Fake.rpcData
           Fake.DAI_ADDRESS 120 st (after_batch_calls 1 st) Fake.accountRaw
           [code; count; balance]);
    vm_compute; try reflexivity; discriminate.
Defined.

(** ** Batches, decoded and persisted *)

(** X13. The results of a batch are decoded by position, result [i] with
    the codec of member [i]: a successful decoding has as many values as
    there were results, at most as many as members, each the decoding of
    the result at its index; the first result that does not decode makes
    the whole decoding fail with its error. *)
Theorem X13_results_are_decoded_by_position
    (raws : list any) (tTypes : list (any -> completion any)) :
  (forall ds,
     map_decode raws tTypes = Normal ds ->
     length ds = length raws /\
     (length raws <= length tTypes)%nat /\
     forall i r, raws !! i = Some r ->
       exists t d, tTypes !! i = Some t /\ ds !! i = Some d /\ decode r t = Normal d) /\
  (forall i r t err,
     raws !! i = Some r -> tTypes !! i = Some t -> decode r t = Throw err ->
     (forall j rj, (j < i)%nat -> raws !! j = Some rj ->
        exists tj dj, tTypes !! j = Some tj /\ decode rj tj = Normal dj) ->
     map_decode raws tTypes = Throw err).
Proof.
  split.
  - revert tTypes. induction raws as [|r0 raws IH]; intros tTypes ds Hrun.
    + cbn in Hrun. injection Hrun as <-. cbn. repeat split; [lia |].
      intros i r Hi. rewrite lookup_nil in Hi. discriminate.
    + cbn [map_decode] in Hrun. destruct tTypes as [|t0 tTypes]; [discriminate |].
      destruct (decode r0 t0) as [d0 |] eqn:Hd0; [| discriminate].
      destruct (map_decode raws tTypes) as [ds' |] eqn:Hrest; [| discriminate].
      injection Hrun as <-.
      destruct (IH tTypes ds' Hrest) as (Hlen & Hle & Hpos).
      cbn [length]. repeat split; [lia | lia |].
      intros [|i] r Hi; cbn in Hi.
      * injection Hi as <-. exists t0, d0. auto.
      * destruct (Hpos i r Hi) as (t & d & Ht & Hd & Hdec). exists t, d. auto.
  - revert tTypes. induction raws as [|r0 raws IH]; intros tTypes i r t err Hr Ht Hdec Hbefore.
    + rewrite lookup_nil in Hr. discriminate.
    + destruct tTypes as [|t0 tTypes]; [rewrite lookup_nil in Ht; discriminate |].
      cbn [map_decode]. destruct i as [|i]; cbn in Hr, Ht.
      * injection Hr as ->. injection Ht as ->. rewrite Hdec. reflexivity.
      * destruct (Hbefore 0%nat r0 ltac:(lia) eq_refl) as (tj & dj & Htj & Hdj).
        cbn in Htj. injection Htj as <-. rewrite Hdj.
        rewrite (IH tTypes i r t err Hr Ht Hdec); [reflexivity |].
        intros j rj Hj Hrj. apply (Hbefore (S j) rj); [lia | exact Hrj].
Qed.

Lemma X13_witness :
  let codecs := [Fake.rpcData; Fake.rpcData; Fake.rpcData] in
  let ds := [JsBuffer [48; 120; 54; 48; 56; 48]; JsBuffer [48; 120; 49];
             JsBuffer [48; 120; 48]] in
  (length ds = length Fake.accountRaw /\
   (length Fake.accountRaw <= length codecs)%nat) /\
  map_decode [JsString "0x1"; JsNull; JsNumber 3] codecs
  = Throw (ErrorInstance "Invalid value supplied to DATA").
Proof.
  intros codecs ds.
  destruct (X13_results_are_decoded_by_position Fake.accountRaw codecs) as [Hok _].
  destruct (X13_results_are_decoded_by_position [JsString "0x1"; JsNull; JsNumber 3]
              codecs) as [_ Hfail].
  split.
  - destruct (Hok ds eq_refl) as (Hlen & Hle & _). auto.
  - apply (Hfail 1%nat JsNull Fake.rpcData); try reflexivity.
    intros [|j] rj Hj Hrj; [| lia].
    cbn in Hrj. injection Hrj as <-. eexists. eexists. split; reflexivity.
Defined.

(** X15. For a batch, a persisted entry counts only if it is an array.
    An entry that is not an array is ignored and the batch goes to the
    transport; an array is decoded by position, put in memory under the
    key of the batch and returned without a transport call and without
    the eligibility policy; an array that does not decode is fatal for
    the call. *)
Theorem X15_persisted_batch_must_be_an_array
    (JSON_stringify : list any -> string) (hash : string -> string)
    (batch : list BatchEntry) (getMax : list any -> option Z)
    (st : State) (p : string) (raw : any) :
  let key := _getBatchCacheKey JSON_stringify hash (this st) batch in
  let outcome := _performBatch JSON_stringify hash batch getMax st in
  memory_miss st key ->
  _getDiskCachePathForKey (this st) key = Normal p ->
  files (world st) !! p = Some (JsonFile raw) ->
  match raw with
  | JsArray rs =>
      match map_decode rs (map tType batch) with
      | Normal ds => outcome = (Normal (JsArray ds), cached key (JsArray ds) st)
      | Throw err => outcome = (Throw err, st)
      end
  | _ => outcome = batchFromTransport key batch getMax st
  end.
Proof.
  intros key outcome Hmem Hp Hfile. subst outcome.
  rewrite _performBatch_cases. cbv zeta. fold key.
  unfold memory_miss in Hmem. rewrite Hmem. cbn [is_defined].
  unfold _getBatchFromDiskCache. run.
  rewrite (_getRawFromDiskCache_file _ _ _ _ Hp Hfile).
  destruct raw; try reflexivity.
  destruct (map_decode items (map tType batch)); reflexivity.
Qed.

Lemma X15_witness :
  let key := _getBatchCacheKey Fake.stringify Fake.hash
               (constructor Fake.downProvider 1 123 3 (Some Fake.tmpDir))
               Fake.accountBatch in
  let p := path_join (path_join Fake.tmpDir "network-1")
             ("request-" +:+ key +:+ ".json") in
  let st raw := Fake.startOnDisk Fake.downProvider {[ p := JsonFile raw ]} in
  let ds := [JsBuffer [48; 120; 54; 48; 56; 48]; JsBuffer [48; 120; 49];
             JsBuffer [48; 120; 48]] in
  _performBatch Fake.stringify Fake.hash Fake.accountBatch (fun _ => Some 121)
    (st (JsArray Fake.accountRaw))
  = (Normal (JsArray ds), cached key (JsArray ds) (st (JsArray Fake.accountRaw))) /\
  _performBatch Fake.stringify Fake.hash Fake.accountBatch (fun _ => Some 121)
    (st (JsString "0x6080"))
  = batchFromTransport key Fake.accountBatch (fun _ => Some 121) (st (JsString "0x6080")) /\
  fst (batchFromTransport key Fake.accountBatch (fun _ => Some 121)
         (st (JsString "0x6080")))
  = Throw (ErrorInstance "connect ECONNREFUSED").
Proof.
  intros key p st ds. split; [| split].
  - apply (X15_persisted_batch_must_be_an_array Fake.stringify Fake.hash
             Fake.accountBatch (fun _ => Some 121) (st (JsArray Fake.accountRaw)) p
             (JsArray Fake.accountRaw)); vm_compute; reflexivity.
  - apply (X15_persisted_batch_must_be_an_array Fake.stringify Fake.hash
             Fake.accountBatch (fun _ => Some 121) (st (JsString "0x6080")) p
             (JsString "0x6080")); vm_compute; reflexivity.
  - vm_compute. reflexivity.
Defined.

(** ** The files of the persistent store *)

Lemma pretty_N_go_lacks_slash x s :
  lacks "/" s = true -> lacks "/" (pretty_N_go x s) = true.
Proof.
  revert s. induction (N.lt_wf_0 x) as [x _ IH]; intros s Hs.
  assert (x = 0 \/ 0 < x)%N as [-> | Hpos] by lia.
  - rewrite pretty_N_go_0. exact Hs.
  - rewrite pretty_N_go_step by exact Hpos. apply IH.
    + apply N.div_lt; lia.
    + cbn [lacks]. rewrite Hs, andb_true_r.
      unfold pretty_N_char. repeat case_match; reflexivity.
Qed.

Lemma pretty_Z_lacks_slash (z : Z) : lacks "/" (pretty z) = true.
Proof.
  assert (HN : forall n : N, lacks "/" (pretty n) = true).
  { intros n. unfold pretty, pretty_N. case_decide; [reflexivity |].
    apply pretty_N_go_lacks_slash. reflexivity. }
  destruct z as [| q | q]; [reflexivity | apply (HN (Npos q)) |].
  change (pretty (Z.neg q)) with ("-" +:+ pretty (Npos q)).
  rewrite append_String, append_empty. cbn [lacks]. apply (HN (Npos q)).
Qed.

Lemma split_at_first c a b x y :
  lacks c a = true -> lacks c b = true ->
  a +:+ String c x = b +:+ String c y -> a = b /\ x = y.
Proof.
  revert b. induction a as [|d a IH]; intros [|e b] Ha Hb H.
  - rewrite !append_empty in H. injection H as H. auto.
  - rewrite append_empty, append_String in H. injection H as <- _.
    cbn in Hb. rewrite Ascii.eqb_refl in Hb. discriminate.
  - rewrite append_empty, append_String in H. injection H as -> _.
    cbn in Ha. rewrite Ascii.eqb_refl in Ha. discriminate.
  - rewrite !append_String in H. injection H as <- H.
    cbn [lacks] in Ha, Hb.
    apply andb_true_iff in Ha as [_ Ha]. apply andb_true_iff in Hb as [_ Hb].
    destruct (IH b Ha Hb H) as [-> ->]. auto.
Qed.

(** X14. Under one cache path, the entries of two networks, or of two
    requests of one network, never share a file: the paths of two cache
    keys are equal only for the same network identity and the same
    key. *)
Theorem X14_one_file_per_network_and_key
    (JSON_stringify : list any -> string) (hash : string -> string)
    (c1 c2 : JsonRpcClient) (forkCachePath : string)
    (method1 method2 : string) (params1 params2 : list any) :
  let key1 := _getCacheKey JSON_stringify hash c1 method1 params1 in
  let key2 := _getCacheKey JSON_stringify hash c2 method2 params2 in
  _forkCachePath c1 = Some forkCachePath ->
  _forkCachePath c2 = Some forkCachePath ->
  _getDiskCachePathForKey c1 key1 = _getDiskCachePathForKey c2 key2 ->
  _networkId c1 = _networkId c2 /\ key1 = key2.
Proof.
  intros key1 key2 H1 H2 Heq. unfold _getDiskCachePathForKey in Heq.
  rewrite H1, H2 in Heq. injection Heq as Heq. unfold path_join in Heq.
  rewrite !append_assoc in Heq. apply append_cancel_l in Heq.
  apply append_cancel_l in Heq. apply append_cancel_l in Heq.
  change (pretty (_networkId c1) +:+ String "/" ("request-" +:+ key1 +:+ ".json")
          = pretty (_networkId c2) +:+ String "/" ("request-" +:+ key2 +:+ ".json"))
    in Heq.
  apply split_at_first in Heq as [Hnet Hkey]; try apply pretty_Z_lacks_slash.
  apply (inj pretty) in Hnet.
  apply append_cancel_l in Hkey. apply append_cancel_r in Hkey. auto.
Qed.

Lemma X14_witness :
  let c1 := constructor Fake.fakeProvider 1 123 3 (Some Fake.tmpDir) in
  let c2 := constructor Fake.fakeProvider 1 500 30 (Some Fake.tmpDir) in
  let ps := storageParams Fake.bufferToHex Fake.numberToRpcQuantity
              Fake.DAI_ADDRESS Fake.DAI_TOTAL_SUPPLY_STORAGE_POSITION 120 in
  _getDiskCachePathForKey c1 (Fake.storageKey 120) = Normal (Fake.storagePath 120) /\
  _networkId c1 = _networkId c2 /\
  _getCacheKey Fake.stringify Fake.hash c1 "eth_getStorageAt" ps
  = _getCacheKey Fake.stringify Fake.hash c2 "eth_getStorageAt" ps.
Proof.
  intros c1 c2 ps. split; [reflexivity |].
  apply (X14_one_file_per_network_and_key Fake.stringify Fake.hash c1 c2 Fake.tmpDir
           "eth_getStorageAt" "eth_getStorageAt" ps ps); reflexivity.
Defined.

(** ** Lookups by hash that find something *)

Lemma lookup_call_exact JSON_stringify hash bufferToHex
    rpcBlock rpcBlockWithTransactions rpcTransaction rpcTransactionReceipt l :
  lookup_call JSON_stringify hash bufferToHex
    rpcBlock rpcBlockWithTransactions rpcTransaction rpcTransactionReceipt l
  = _perform JSON_stringify hash (lookup_method l) (lookup_params bufferToHex l)
      (lookup_codec rpcBlock rpcBlockWithTransactions rpcTransaction
         rpcTransactionReceipt l)
      (fun v => optional_BN_field (lookup_field l) v).
Proof. destruct l as [blockHash [|] | transactionHash | transactionHash]; reflexivity. Qed.

(** X17. A block, transaction or receipt found by hash is cached by the
    block number it carries ([number] of a block, [blockNumber] of a
    transaction or receipt): on the transport path of a client without
    cache path it enters the in-memory cache exactly when that field is a
    number at most [latestBlockNumberOnCreation - maxReorg].  A pending
    transaction, whose [blockNumber] is [null], is returned and not
    cached.  When the field is a number of more than 53 bits the call
    fails with the error of [BN.toNumber], nothing being cached. *)
Theorem X17_found_by_hash_is_cached_by_its_block
    (JSON_stringify : list any -> string) (hash : string -> string)
    (bufferToHex : list Z -> string)
    (rpcBlock rpcBlockWithTransactions rpcTransaction rpcTransactionReceipt
       : any -> completion any)
    (l : lookup) (st st1 : State) (raw found : any) :
  let ps := lookup_params bufferToHex l in
  let key := _getCacheKey JSON_stringify hash (this st) (lookup_method l) ps in
  let threshold := _latestBlockNumberOnCreation (this st) - _maxReorg (this st) in
  memory_miss st key -> disk_miss st key ->
  _send (lookup_method l) ps false st = (Normal raw, st1) ->
  decode raw (lookup_codec rpcBlock rpcBlockWithTransactions rpcTransaction
                rpcTransactionReceipt l) = Normal found ->
  _forkCachePath (this st) = None ->
  lookup_call JSON_stringify hash bufferToHex
    rpcBlock rpcBlockWithTransactions rpcTransaction rpcTransactionReceipt l st
  = match optional_BN_field (lookup_field l) found with
    | Some n =>
        if Z.abs n <? 2 ^ 53
        then (Normal found, if n <=? threshold then cached key found st1 else st1)
        else (Throw (ErrorInstance "Number can only safely store up to 53 bits"), st1)
    | None => (Normal found, st1)
    end.
Proof.
  intros ps key threshold Hmem Hdisk Hsend Hdec Hnone.
  rewrite lookup_call_exact. fold ps.
  rewrite _perform_miss by assumption. fold key.
  destruct (optional_BN_field (lookup_field l) found) as [n |] eqn:Hnumber.
  - pose proof (_canBeCached_Some (this st) n) as Hcan. fold threshold in Hcan.
    destruct (Z.abs n <? 2 ^ 53).
    + destruct (n <=? threshold) eqn:Hle.
      * apply (fetch_cacheable_memory_only key _ _ _ _ _ _ _ Hsend found Hdec);
          [| exact Hnone].
        rewrite Hnumber. exact Hcan.
      * apply (fetch_not_cacheable key _ _ _ _ _ _ _ Hsend found Hdec).
        rewrite Hnumber. exact Hcan.
    + apply (fetch_policy_throws key _ _ _ _ _ _ _ Hsend found _ Hdec).
      rewrite Hnumber. exact Hcan.
  - apply (fetch_not_cacheable key _ _ _ _ _ _ _ Hsend found Hdec).
    rewrite Hnumber. reflexivity.
Qed.

Lemma X17_witness :
  let pending := JsObject [("hash", JsString "0xdeadbeef"); ("blockNumber", JsNull)] in
  let mined := JsObject [("hash", JsString "0xdeadbeef"); ("blockNumber", JsBN 100)] in
  let huge := JsObject [("hash", JsString "0xdeadbeef"); ("blockNumber", JsBN (2 ^ 53))] in
  let l := TransactionByHash [222; 173; 190; 239] in
  let st tx := Fake.start (Fake.scripted "fake" (fun _ => Normal tx)) in
  let key := _getCacheKey Fake.stringify Fake.hash (this (st mined))
               (lookup_method l) (lookup_params Fake.bufferToHex l) in
  Fake.lookup_call l (st pending) = (Normal pending, after_calls 1 (st pending)) /\
  Fake.lookup_call l (st mined)
  = (Normal mined, cached key mined (after_calls 1 (st mined))) /\
  Fake.lookup_call l (st huge)
  = (Throw (ErrorInstance "Number can only safely store up to 53 bits"),
     after_calls 1 (st huge)).
Proof.
  intros pending mined huge l st key. split; [| split].
  - apply (X17_found_by_hash_is_cached_by_its_block Fake.stringify Fake.hash
             Fake.bufferToHex Fake.rpcEntity Fake.rpcEntity Fake.rpcEntity Fake.rpcEntity
             l (st pending) (after_calls 1 (st pending)) pending pending);
      vm_compute; reflexivity.
  - apply (X17_found_by_hash_is_cached_by_its_block Fake.stringify Fake.hash
             Fake.bufferToHex Fake.rpcEntity Fake.rpcEntity Fake.rpcEntity Fake.rpcEntity
             l (st mined) (after_calls 1 (st mined)) mined mined);
      vm_compute; reflexivity.
  - apply (X17_found_by_hash_is_cached_by_its_block Fake.stringify Fake.hash
             Fake.bufferToHex Fake.rpcEntity Fake.rpcEntity Fake.rpcEntity Fake.rpcEntity
             l (st huge) (after_calls 1 (st huge)) huge huge);
      vm_compute; reflexivity.
Defined.

(** ** A request and the entries of the others, on the fake collaborators *)

Lemma X8_witness :
  let st := snd (Fake.getStorageAt 110 (Fake.start Fake.fakeProvider)) in
  let st' := snd (Fake.getStorageAt 120 st) in
  Fake.storageKey 110 <> Fake.storageKey 120 /\
  _cache (this st) !! Fake.storageKey 110 = Some Fake.decoded1 /\
  _cache (this st') !! Fake.storageKey 110 = Some Fake.decoded1 /\
  sendBatchCalls (world st') = sendBatchCalls (world st).
Proof.
  intros st st'.
  assert (Hne : Fake.storageKey 110 <> Fake.storageKey 120) by (vm_compute; discriminate).
  assert (Hin : _cache (this st) !! Fake.storageKey 110 = Some Fake.decoded1)
    by (vm_compute; reflexivity).
  split; [exact Hne |]. split; [exact Hin |].
  destruct (X8_a_request_touches_its_own_entry_only Fake.stringify Fake.hash st)
    as [Hsingle _].
  destruct (Hsingle "eth_getStorageAt"
              (storageParams Fake.bufferToHex Fake.numberToRpcQuantity
                 Fake.DAI_ADDRESS Fake.DAI_TOTAL_SUPPLY_STORAGE_POSITION 120)
              Fake.rpcData (fun _ => Some 120)) as ((_ & Hother & _) & Hbatch).
  split; [| exact Hbatch].
  change (_cache (this st') !! Fake.storageKey 110) with
    (_cache (this (snd (_perform Fake.stringify Fake.hash "eth_getStorageAt"
                          (storageParams Fake.bufferToHex Fake.numberToRpcQuantity
                             Fake.DAI_ADDRESS Fake.DAI_TOTAL_SUPPLY_STORAGE_POSITION 120)
                          Fake.rpcData (fun _ => Some 120) st)))
       !! Fake.storageKey 110).
  rewrite Hother; [exact Hin | exact Hne].
Defined.
